(** * Model_Composite: bookkeeping of a training harness

    A shallow embedding of [models/model_composite.py]: the class
    [Model_Composite] with its constructor, [model_train], [model_test],
    [get_norm] and [get_incorrect_pred].

    Conventions of the embedding.
    - Python [int]s are [Z]; [len(...)] is a [nat] injected in [Z].
    - Python [float]s are exact rationals ([Q]); equality of float values is
      stated with [==] ([Qeq]).  The rounding of IEEE doubles is not modelled.
    - A tensor of class labels is a [list Z]; a tensor of samples is a
      [list Input].
    - A method is a computation over the instance: it takes the object's state
      and gives back an outcome (a value or a raised exception) together with
      the state as the call left it.  Mutations made before an exception is
      raised stay, as in Python.
    - The framework (the network's forward pass, the loss function, the
      optimiser, the scheduler) is a collaborator: it enters as a section
      variable or as an argument of the method, and may raise. *)

From Stdlib Require Import List ZArith QArith Qround Qabs Bool String Lia Arith.
From Stdlib Require Import Lqa.
Import ListNotations.

Set Implicit Arguments.

Declare Scope py_scope.
Delimit Scope py_scope with py.

(** ** Exceptions and outcomes *)

Inductive PyErr : Type :=
| ZeroDivisionError
| IndexError
| TypeError
| RuntimeError
| StopIteration
| FrameworkError (code : Z).

Inductive Outcome (A : Type) : Type :=
| Returned (a : A)
| Raised (e : PyErr).

Arguments Raised {A} e.

Definition returns {A : Type} (o : Outcome A) : bool :=
  match o with Returned _ => true | Raised _ => false end.

(** ** The layers [get_norm] can build

    [BatchNorm2d c] stands for [nn.BatchNorm2d(c)] and [GroupNorm g c] for
    [nn.GroupNorm(g, c)].  What the framework's constructors check of their
    arguments is the framework's business and is not described here. *)

Inductive NormLayer : Type :=
| BatchNorm2d (num_features : Z)
| GroupNorm (num_groups num_channels : Z).



(** ** The line printed by [model_test] *)

Record Report : Type := mkReport {
  average_loss : Q;
  n_correct : Z;
  n_total : Z;
  accuracy : Q;
  accuracy_diff : Q
}.

(** ** Numbers *)

Definition len {A : Type} (l : list A) : Z := Z.of_nat (List.length l).

(** [100*c/p] as a number. *)
Definition ratio100 (c p : Z) : Q := (inject_Z (100 * c) / inject_Z p)%Q.

Arguments ratio100 : simpl never.

(** [100*c/p], a true division: raises on a zero divisor. *)
Definition percent (c p : Z) : Outcome Q :=
  if (p =? 0)%Z then Raised ZeroDivisionError
  else Returned (ratio100 c p).

(** [a / b] on an [int] pair, giving a float. *)
Definition true_div (a b : Z) : Outcome Q :=
  if (b =? 0)%Z then Raised ZeroDivisionError
  else Returned (inject_Z a / inject_Z b)%Q.

(** [x / y] on floats. *)
Definition float_div (x y : Q) : Outcome Q :=
  if Qeq_bool y 0 then Raised ZeroDivisionError else Returned (x / y)%Q.

(** Rounding to the nearest integer, ties to even. *)
Definition round_half_even (x : Q) : Z :=
  let f := Qfloor x in
  let r := (x - inject_Z f)%Q in
  match Qcompare r (1 # 2) with
  | Lt => f
  | Gt => (f + 1)%Z
  | Eq => if Z.even f then f else (f + 1)%Z
  end.

(** [round(x, 4)]. *)
Definition round4 (x : Q) : Q :=
  (inject_Z (round_half_even (x * 10000)) / 10000)%Q.

(** [l[-1]]. *)
Fixpoint last_item {A : Type} (l : list A) : Outcome A :=
  match l with
  | [] => Raised IndexError
  | [a] => Returned a
  | _ :: l' => last_item l'
  end.

Fixpoint Qsum (l : list Q) : Q :=
  match l with
  | [] => 0%Q
  | x :: l' => (x + Qsum l')%Q
  end.

Fixpoint Zsum (l : list Z) : Z :=
  match l with
  | [] => 0%Z
  | x :: l' => (x + Zsum l')%Z
  end.

(** ** Tensors of labels *)

(** [pred.eq(target.view_as(pred)).sum().item()]: [view_as] needs as many
    targets as predictions; the sum counts the positions that agree. *)
Fixpoint agreements (pred target : list Z) : Z :=
  match pred, target with
  | p :: ps, t :: ts => ((if (p =? t)%Z then 1 else 0) + agreements ps ts)%Z
  | _, _ => 0%Z
  end.

Definition count_correct (pred target : list Z) : Outcome Z :=
  if (List.length pred =? List.length target)%nat
  then Returned (agreements pred target)
  else Raised RuntimeError.

(** [a.eq(b)] on one-dimensional tensors, with broadcasting of a tensor of
    one element. *)
Fixpoint eq_rows (a b : list Z) : list bool :=
  match a, b with
  | x :: a', y :: b' => (x =? y)%Z :: eq_rows a' b'
  | _, _ => []
  end.

Definition tensor_eq (a b : list Z) : Outcome (list bool) :=
  if (List.length a =? List.length b)%nat then Returned (eq_rows a b)
  else match a, b with
       | [x], _ => Returned (map (fun y => (x =? y)%Z) b)
       | _, [y] => Returned (map (fun x => (x =? y)%Z) a)
       | _, _ => Raised RuntimeError
       end.

(** [torch.where(cond, x, y)] with scalar [x] and [y]. *)
Definition where_ (cond : list bool) (x y : Z) : list Z :=
  map (fun c : bool => if c then x else y) cond.

(** [v.nonzero()]: the positions of the non-zero entries, in increasing
    order, one row each. *)
Fixpoint nonzero_from (i : nat) (v : list Z) : list nat :=
  match v with
  | [] => []
  | x :: v' =>
      if (x =? 0)%Z then nonzero_from (S i) v' else i :: nonzero_from (S i) v'
  end.

Definition nonzero (v : list Z) : list nat := nonzero_from 0 v.

(** [l[:stop]]: a negative [stop] counts from the end. *)
Definition slice_to {A : Type} (stop : Z) (l : list A) : list A :=
  if (0 <=? stop)%Z then firstn (Z.to_nat stop) l
  else firstn (Z.to_nat (len l + stop)) l.

(** An index tensor after [squeeze()]: a column of one row collapses to a
    scalar, any other column to a vector. *)
Inductive Index : Type :=
| Index0 (i : nat)
| Index1 (rows : list nat).

Definition squeeze (rows : list nat) : Index :=
  match rows with
  | [i] => Index0 i
  | _ => Index1 rows
  end.

(** What [xs[index]] gives: one item for a scalar index, a tensor of items
    for a vector. *)
Inductive Picked (A : Type) : Type :=
| Single (a : A)
| Several (l : list A).

Fixpoint gather {A : Type} (xs : list A) (rows : list nat) : Outcome (list A) :=
  match rows with
  | [] => Returned []
  | i :: rows' =>
      match nth_error xs i with
      | None => Raised IndexError
      | Some a =>
          match gather xs rows' with
          | Returned l => Returned (a :: l)
          | Raised e => Raised e
          end
      end
  end.

Definition index_with {A : Type} (xs : list A) (ix : Index) : Outcome (Picked A) :=
  match ix with
  | Index0 i =>
      match nth_error xs i with
      | Some a => Returned (Single a)
      | None => Raised IndexError
      end
  | Index1 rows =>
      match gather xs rows with
      | Returned l => Returned (Several l)
      | Raised e => Raised e
      end
  end.

Definition items {A : Type} (p : Picked A) : list A :=
  match p with
  | Single a => [a]
  | Several l => l
  end.

(** The (input, target, prediction) triples held by the three tensors
    [get_incorrect_pred] returns. *)
Definition triples {A : Type} (r : Picked A * Picked Z * Picked Z)
  : list (A * Z * Z) :=
  let '(d, t, p) := r in combine (combine (items d) (items t)) (items p).

(** The entries of [zs] whose flag is set. *)
Definition kept {A : Type} (zs : list A) (flags : list bool) : list A :=
  map fst (filter snd (combine zs flags)).

(** What indexing with a squeezed column of indices gives for the selected
    items [l]: the item itself when there is one, a tensor of them
    otherwise. *)
Definition picked {A : Type} (l : list A) : Picked A :=
  match l with
  | [a] => Single a
  | _ => Several l
  end.

(** ** Charts *)

(** One call [plt.plot(x, y, label=...)]. *)
Record PlotCall : Type := mkPlot {
  plot_x : list Z;
  plot_y : list Q;
  plot_label : string
}.

(** [list(range(1, n + 1))]. *)
Definition range1 (n : nat) : list Z := map Z.of_nat (seq 1 n).

(** A line has as many abscissas as ordinates. *)
Definition drawable (p : PlotCall) : Prop :=
  List.length (plot_x p) = List.length (plot_y p).

(** ** Data sources *)

Section Harness.

Variable Input : Type.       (* one sample *)
Variable Output : Type.      (* the tensor a forward pass returns *)
Variable Net : Type.         (* parameters, buffers, optimiser and scheduler state *)

(** [self(data)], in training or in evaluation mode. *)
Variable forward : bool -> Net -> list Input -> Outcome Output.
(** [y_pred.argmax(dim=1)]: one class label per row. *)
Variable argmax : Output -> list Z.

Record Batch : Type := mkBatch {
  data : list Input;
  target : list Z
}.

(** What one pass over a [DataLoader] yields, with the attributes
    [model_test] reads. *)
Record Loader : Type := mkLoader {
  batches : list Batch;
  dataset_len : nat;            (* len(loader.dataset) *)
  batch_size : option Z         (* loader.batch_size, None when unset *)
}.

(** [criterion(y_pred, target).item()] when [sum_reduction] is [false],
    [criterion(y_pred, target, reduction='sum').item()] when it is [true]. *)
Definition Criterion : Type := bool -> Output -> list Z -> Outcome Q.

(** [optimizer.zero_grad(); loss.backward(); optimizer.step()] on a batch. *)
Definition Optimizer : Type := Net -> list Input -> list Z -> Outcome Net.

(** [scheduler.step()]. *)
Definition Scheduler : Type := Net -> Outcome Net.

(** ** The instance *)

Record Model_Composite : Type := mkModel {
  train_accuracy : list Q;
  test_accuracy : list Q;
  train_losses : list Q;
  test_losses : list Q;
  norm_type : string;
  n_groups : Z;
  training : bool;              (* nn.Module's mode flag *)
  net : Net;
  console : list Report         (* what has been printed, oldest first *)
}.

(** [__init__]; a fresh [nn.Module] is in training mode. *)
Definition __init__ (w : Net) : Model_Composite :=
  {| train_accuracy := [];
     test_accuracy := [];
     train_losses := [];
     test_losses := [];
     norm_type := "bn";
     n_groups := 2;
     training := true;
     net := w;
     console := [] |}.

(** ** Computations over the instance *)

Definition M (A : Type) : Type := Model_Composite -> Outcome A * Model_Composite.

Definition ret {A : Type} (a : A) : M A := fun s => (Returned a, s).

Definition bind {A B : Type} (m : M A) (k : A -> M B) : M B :=
  fun s =>
    match m s with
    | (Returned a, s') => k a s'
    | (Raised e, s') => (Raised e, s')
    end.

Definition lift {A : Type} (o : Outcome A) : M A := fun s => (o, s).

Definition gets {A : Type} (f : Model_Composite -> A) : M A :=
  fun s => (Returned (f s), s).

Definition modify (f : Model_Composite -> Model_Composite) : M unit :=
  fun s => (Returned tt, f s).

Local Notation "x <- m ;; k" := (bind m (fun x => k))
  (at level 61, m at next level, right associativity) : py_scope.
Local Notation "m ;;; k" := (bind m (fun _ => k))
  (at level 61, right associativity) : py_scope.
Local Open Scope py_scope.

(** Field updates. *)

Definition set_training (b : bool) (s : Model_Composite) : Model_Composite :=
  mkModel (train_accuracy s) (test_accuracy s) (train_losses s) (test_losses s)
          (norm_type s) (n_groups s) b (net s) (console s).

Definition set_net (w : Net) (s : Model_Composite) : Model_Composite :=
  mkModel (train_accuracy s) (test_accuracy s) (train_losses s) (test_losses s)
          (norm_type s) (n_groups s) (training s) w (console s).

Definition set_norm (tag : string) (g : Z) (s : Model_Composite) : Model_Composite :=
  mkModel (train_accuracy s) (test_accuracy s) (train_losses s) (test_losses s)
          tag g (training s) (net s) (console s).

Definition append_train_accuracy (a : Q) (s : Model_Composite) : Model_Composite :=
  mkModel (train_accuracy s ++ [a]) (test_accuracy s) (train_losses s) (test_losses s)
          (norm_type s) (n_groups s) (training s) (net s) (console s).

Definition append_test_accuracy (a : Q) (s : Model_Composite) : Model_Composite :=
  mkModel (train_accuracy s) (test_accuracy s ++ [a]) (train_losses s) (test_losses s)
          (norm_type s) (n_groups s) (training s) (net s) (console s).

Definition append_train_losses (l : Q) (s : Model_Composite) : Model_Composite :=
  mkModel (train_accuracy s) (test_accuracy s) (train_losses s ++ [l]) (test_losses s)
          (norm_type s) (n_groups s) (training s) (net s) (console s).

Definition append_test_losses (l : Q) (s : Model_Composite) : Model_Composite :=
  mkModel (train_accuracy s) (test_accuracy s) (train_losses s) (test_losses s ++ [l])
          (norm_type s) (n_groups s) (training s) (net s) (console s).

Definition print (r : Report) (s : Model_Composite) : Model_Composite :=
  mkModel (train_accuracy s) (test_accuracy s) (train_losses s) (test_losses s)
          (norm_type s) (n_groups s) (training s) (net s) (console s ++ [r]).

(** [self(data)]: the forward pass in the mode the module is in. *)
Definition call_self (xs : list Input) : M Output :=
  fun s => (forward (training s) (net s) xs, s).

(** The optimiser's work on one batch; the new parameters are stored when it
    returns.  (What a raising optimiser leaves behind is not tracked.) *)
Definition backprop (optimizer : Optimizer) (b : Batch) : M unit :=
  fun s =>
    match optimizer (net s) (data b) (target b) with
    | Returned w => (Returned tt, set_net w s)
    | Raised e => (Raised e, s)
    end.

(** [if scheduler is not None: scheduler.step()]. *)
Definition step_scheduler (scheduler : option Scheduler) : M unit :=
  match scheduler with
  | None => ret tt
  | Some sch =>
      fun s =>
        match sch (net s) with
        | Returned w => (Returned tt, set_net w s)
        | Raised e => (Raised e, s)
        end
  end.

(** ** [model_train] *)

(** The three local accumulators of a pass. *)
Record Tally : Type := mkTally {
  loss_total : Q;
  correct : Z;
  processed : Z
}.

Definition tally0 : Tally := mkTally 0 0 0.

(** The body of [for data, target in pbar]. *)
Fixpoint train_loop (criterion : Criterion) (optimizer : Optimizer)
         (scheduler : option Scheduler) (bs : list Batch) (t : Tally) : M Tally :=
  match bs with
  | [] => ret t
  | b :: rest =>
      y_pred <- call_self (data b) ;;
      loss <- lift (criterion false y_pred (target b)) ;;
      let train_loss := (loss_total t + loss)%Q in
      c <- lift (count_correct (argmax y_pred) (target b)) ;;
      let correct' := (correct t + c)%Z in
      let processed' := (processed t + len (data b))%Z in
      backprop optimizer b ;;;
      step_scheduler scheduler ;;;
      (* pbar.set_description formats 100*correct/processed *)
      _ <- lift (percent correct' processed') ;;
      train_loop criterion optimizer scheduler rest
                 (mkTally train_loss correct' processed')
  end.

Definition model_train (train_loader : Loader) (criterion : Criterion)
           (optimizer : Optimizer) (scheduler : option Scheduler) : M unit :=
  modify (set_training true) ;;;
  t <- train_loop criterion optimizer scheduler (batches train_loader) tally0 ;;
  acc <- lift (percent (correct t) (processed t)) ;;
  modify (append_train_accuracy acc) ;;;
  modify (append_train_losses (loss_total t)).

(** ** [model_test] *)

(** The [try]/[except] around the loss of a batch: a bare [except] catches
    whatever the first call raises. *)
Definition test_batch_loss (criterion : Criterion) (y_pred : Output)
           (tgt : list Z) : Outcome Q :=
  match criterion true y_pred tgt with
  | Returned v => Returned v
  | Raised _ => criterion false y_pred tgt
  end.

Fixpoint test_loop (criterion : Criterion) (bs : list Batch) (t : Tally) : M Tally :=
  match bs with
  | [] => ret t
  | b :: rest =>
      y_pred <- call_self (data b) ;;
      loss <- lift (test_batch_loss criterion y_pred (target b)) ;;
      let test_loss := (loss_total t + loss)%Q in
      c <- lift (count_correct (argmax y_pred) (target b)) ;;
      test_loop criterion rest
                (mkTally test_loss (correct t + c) (processed t + len (data b)))
  end.

Definition read_batch_size (l : Loader) : Outcome Z :=
  match batch_size l with
  | Some b => Returned b
  | None => Raised TypeError
  end.

Definition model_test (test_loader : Loader) (criterion : Criterion) : M unit :=
  modify (set_training false) ;;;
  t <- test_loop criterion (batches test_loader) tally0 ;;
  modify (append_test_losses (loss_total t)) ;;;
  let n := Z.of_nat (dataset_len test_loader) in
  bsz <- lift (read_batch_size test_loader) ;;
  iterations <- lift (true_div n bsz) ;;
  test_loss <- lift (float_div (loss_total t) iterations) ;;
  acc <- lift (percent (correct t) n) ;;
  modify (append_test_accuracy acc) ;;;
  shown <- lift (percent (correct t) n) ;;
  latest_test <- (l <- gets test_accuracy ;; lift (last_item l)) ;;
  latest_train <- (l <- gets train_accuracy ;; lift (last_item l)) ;;
  modify (print (mkReport test_loss (correct t) n shown
                          (Qabs (round4 (latest_test - latest_train))))).

(** ** [get_norm] *)

(** A Python function that falls off its end returns [None]. *)
Definition get_norm (self : Model_Composite) (n_channels : Z) : option NormLayer :=
  if String.eqb (norm_type self) "bn" then Some (BatchNorm2d n_channels)
  else if String.eqb (norm_type self) "ln" then Some (GroupNorm 1 n_channels)
  else if String.eqb (norm_type self) "gn" then Some (GroupNorm (n_groups self) n_channels)
  else None.

(** ** [get_incorrect_pred] *)

(** [next(iter(test_loader))]. *)
Definition first_batch (l : Loader) : Outcome Batch :=
  match batches l with
  | [] => Raised StopIteration
  | b :: _ => Returned b
  end.

Definition get_incorrect_pred (test_loader : Loader) (top_n : Z)
  : M (Picked Input * Picked Z * Picked Z) :=
  b <- lift (first_batch test_loader) ;;
  y_pred <- call_self (data b) ;;
  let pred := argmax y_pred in
  compare <- lift (tensor_eq pred (target b)) ;;
  let incorrect_indx := nonzero (where_ (map negb compare) 1 0) in
  let top_n_pred := squeeze (slice_to top_n incorrect_indx) in
  d <- lift (index_with (data b) top_n_pred) ;;
  t <- lift (index_with (target b) top_n_pred) ;;
  p <- lift (index_with pred top_n_pred) ;;
  ret (d, t, p).

(** [top_n] defaults to 10. *)
Definition get_incorrect_pred_default (test_loader : Loader)
  : M (Picked Input * Picked Z * Picked Z) :=
  get_incorrect_pred test_loader 10.

(** ** Sequences of calls *)

Inductive Call : Type :=
| Train (train_loader : Loader) (criterion : Criterion) (optimizer : Optimizer)
        (scheduler : option Scheduler)
| Test (test_loader : Loader) (criterion : Criterion).

Definition run_call (c : Call) : M unit :=
  match c with
  | Train l cr op sch => model_train l cr op sch
  | Test l cr => model_test l cr
  end.

(** The calls one after the other; the first exception ends the run. *)
Fixpoint run_calls (cs : list Call) : M unit :=
  match cs with
  | [] => ret tt
  | c :: cs' => run_call c ;;; run_calls cs'
  end.

Definition is_train (c : Call) : bool :=
  match c with Train _ _ _ _ => true | Test _ _ => false end.

Definition count_train (cs : list Call) : nat :=
  List.length (filter is_train cs).

Definition count_test (cs : list Call) : nat :=
  List.length (filter (fun c => negb (is_train c)) cs).

(** ** [plot_accuracy] and [plot_loss]

    The calls of [plt.plot] each of them makes, in order. *)

Definition plot_accuracy (self : Model_Composite) : list PlotCall :=
  let epochs := range1 (List.length (train_accuracy self)) in
  [mkPlot epochs (train_accuracy self) "Train accuracy";
   mkPlot epochs (test_accuracy self) "Test accuracy"].

Definition plot_loss (self : Model_Composite) : list PlotCall :=
  let epochs := range1 (List.length (train_accuracy self)) in
  [mkPlot epochs (train_losses self) "Train loss";
   mkPlot epochs (test_losses self) "Test loss"].

(** ** Vocabulary of the statements *)

(** Everything but the parameters is as it was. *)
Definition same_records (s s' : Model_Composite) : Prop :=
  train_accuracy s' = train_accuracy s /\
  test_accuracy s' = test_accuracy s /\
  train_losses s' = train_losses s /\
  test_losses s' = test_losses s /\
  norm_type s' = norm_type s /\
  n_groups s' = n_groups s /\
  training s' = training s /\
  console s' = console s.

(** What a batch contributes to a training pass, in mode [mode]: its loss and
    its number of correct predictions, for the parameters the pass has
    reached when the batch comes. *)
Definition train_step (criterion : Criterion) (mode : bool) (b : Batch)
           (r : Q * Z) : Prop :=
  exists w y,
    forward mode w (data b) = Returned y /\
    criterion false y (target b) = Returned (fst r) /\
    count_correct (argmax y) (target b) = Returned (snd r).

(** What a batch contributes to an evaluation pass with parameters [w]. *)
Definition test_step (criterion : Criterion) (mode : bool) (w : Net) (b : Batch)
           (r : Q * Z) : Prop :=
  exists y,
    forward mode w (data b) = Returned y /\
    test_batch_loss criterion y (target b) = Returned (fst r) /\
    count_correct (argmax y) (target b) = Returned (snd r).

(** Number of samples a pass sees. *)
Definition samples (bs : list Batch) : Z :=
  Zsum (map (fun b => len (data b)) bs).

(** The totals [t] of an evaluation pass over [test_loader] from the instance
    [s]: the sums of what the batches contribute. *)
Definition test_pass (criterion : Criterion) (test_loader : Loader)
           (s : Model_Composite) (t : Tally) : Prop :=
  exists steps : list (Q * Z),
    Forall2 (test_step criterion false (net s)) (batches test_loader) steps /\
    loss_total t == Qsum (map fst steps) /\
    correct t = Zsum (map snd steps) /\
    processed t = samples (batches test_loader).

(** The totals of a training pass. *)
Definition train_pass (criterion : Criterion) (train_loader : Loader)
           (t : Tally) : Prop :=
  exists steps : list (Q * Z),
    Forall2 (train_step criterion true) (batches train_loader) steps /\
    loss_total t == Qsum (map fst steps) /\
    correct t = Zsum (map snd steps) /\
    processed t = samples (batches train_loader).

(** The instance [model_test] leaves when it returns: totals [t], batch size
    [bsz], latest training accuracy [a]. *)
Definition tested (test_loader : Loader) (t : Tally) (bsz : Z) (a : Q)
           (s : Model_Composite) : Model_Composite :=
  let n := Z.of_nat (dataset_len test_loader) in
  let acc := ratio100 (correct t) n in
  print (mkReport (loss_total t / (inject_Z n / inject_Z bsz)) (correct t) n acc
                  (Qabs (round4 (acc - a))))
        (append_test_accuracy acc
           (append_test_losses (loss_total t) (set_training false s))).

(** A batch with one target per input. *)
Definition paired (b : Batch) : Prop :=
  List.length (target b) = List.length (data b).

(** What a call needs of its data source for its accuracy to be a
    percentage: batches of paired inputs and targets and, for an evaluation,
    no more samples in the pass than the dataset has. *)
Definition sound_source (c : Call) : Prop :=
  match c with
  | Train l _ _ _ => Forall paired (batches l)
  | Test l _ =>
      Forall paired (batches l) /\
      (samples (batches l) <= Z.of_nat (dataset_len l))%Z
  end.

(** [new] is [old], or [old] with one percentage appended. *)
Definition appended_percentage (old new : list Q) : Prop :=
  new = old \/ exists a : Q, new = old ++ [a] /\ 0 <= a <= 100.



(** The misclassified samples of a batch, in the order of the batch, each
    with its target and its prediction. *)
Definition misclassified (xs : list Input) (tgt pred : list Z)
  : list (Input * Z * Z) :=
  filter (fun r : Input * Z * Z => negb (snd r =? snd (fst r))%Z)
         (combine (combine xs tgt) pred).

(** Collaborators that do not raise: a network that gives one label per
    sample, a loss function, an optimiser, a scheduler. *)
Definition forward_returns : Prop :=
  forall mode w xs,
    exists y, forward mode w xs = Returned y /\
              List.length (argmax y) = List.length xs.

Definition criterion_returns (criterion : Criterion) : Prop :=
  forall y tgt, exists l, criterion false y tgt = Returned l.

Definition test_loss_returns (criterion : Criterion) : Prop :=
  forall y tgt, exists l, test_batch_loss criterion y tgt = Returned l.

Definition optimizer_returns (optimizer : Optimizer) : Prop :=
  forall w xs tgt, exists w', optimizer w xs tgt = Returned w'.

Definition scheduler_returns (scheduler : option Scheduler) : Prop :=
  forall f, scheduler = Some f -> forall w, exists w', f w = Returned w'.

(** The loss function of a call gives no negative value. *)
Definition nonnegative_loss (c : Call) : Prop :=
  match c with
  | Train _ cr _ _ => forall y tgt v, cr false y tgt = Returned v -> 0 <= v
  | Test _ cr => forall y tgt v, test_batch_loss cr y tgt = Returned v -> 0 <= v
  end.

End Harness.

Arguments tally0 : clear implicits.
Arguments Test {Input Output Net} test_loader criterion.
Arguments Train {Input Output Net} train_loader criterion optimizer scheduler.

(** ** A small concrete harness

    Samples are integers and the network reads the class of a sample off the
    sample itself; the parameters count the optimiser's steps. *)

Module Scenario.

Definition forward (mode : bool) (w : nat) (xs : list Z) : Outcome (list Z) :=
  Returned xs.

Definition argmax (y : list Z) : list Z := y.

(** A loss of 1 per batch, whatever the reduction. *)
Definition unit_loss : Criterion (list Z) := fun _ _ _ => Returned 1%Q.

(** A loss function without a [reduction] parameter. *)
Definition plain_loss : Criterion (list Z) :=
  fun sum_reduction _ _ =>
    if sum_reduction then Raised TypeError else Returned (1 # 2)%Q.

Definition sgd : Optimizer Z nat := fun w _ _ => Returned (S w).

Definition fresh : Model_Composite nat := __init__ 0%nat.

(** Two batches of four samples, every one labelled with its own class. *)
Definition two_batches : Loader Z :=
  mkLoader [mkBatch [0; 1; 2; 3] [0; 1; 2; 3]; mkBatch [4; 5; 6; 7] [4; 5; 6; 7]]%Z
           8 (Some 4%Z).

Definition block (k : nat) : list Z := map Z.of_nat (seq (20 * k) 20).

(** A dataset of 100 samples in 5 batches of 20. *)
Definition hundred : Loader Z :=
  mkLoader (map (fun k => mkBatch (block k) (block k)) (seq 0 5)) 100 (Some 20%Z).

(** A batch of five samples, three of them mislabelled. *)
Definition mixed : Loader Z :=
  mkLoader [mkBatch [1; 2; 3; 4; 5] [1; 0; 3; 0; 0]; mkBatch [6] [6]]%Z
           6 (Some 5%Z).

(** The instance after one epoch of training. *)
Definition trained : Model_Composite nat :=
  snd (model_train forward argmax two_batches unit_loss sgd None fresh).

(** One epoch of training followed by one evaluation. *)
Definition epoch : list (Call Z (list Z) nat) :=
  [Train two_batches unit_loss sgd None; Test hundred unit_loss].

(** The instance with an unknown normalisation tag, and with the group tag. *)
Definition untagged : Model_Composite nat := set_norm "instance" 2 fresh.

Definition grouped : Model_Composite nat := set_norm "gn" 4 fresh.

(** A loader without a batch, one without a batch size, one whose only batch
    has two samples and one target, one with a single mislabelled sample. *)
Definition nothing : Loader Z := mkLoader [] 0 (Some 4%Z).

Definition unsized : Loader Z :=
  mkLoader [mkBatch [0; 1] [0; 1]]%Z 2 None.


Definition one_wrong : Loader Z :=
  mkLoader [mkBatch [1; 2; 3] [1; 0; 3]]%Z 3 (Some 3%Z).

(** The instance after one epoch of training and one evaluation. *)
Definition evaluated : Model_Composite nat :=
  snd (run_calls forward argmax epoch fresh).

End Scenario.

(** * Properties *)

Section HarnessFacts.

Variable Input : Type.
Variable Output : Type.
Variable Net : Type.
Variable forward : bool -> Net -> list Input -> Outcome Output.
Variable argmax : Output -> list Z.

Local Notation "x <- m ;; k" := (bind m (fun x => k))
  (at level 61, m at next level, right associativity) : py_scope.
Local Open Scope py_scope.

(** ** Outcomes of the monadic operations *)

Lemma bind_returned (A B : Type) (m : M Net A) (k : A -> M Net B) s b s' :
  bind m k s = (Returned b, s') ->
  exists a s1, m s = (Returned a, s1) /\ k a s1 = (Returned b, s').
Proof.
  unfold bind. destruct (m s) as [[a|e] s1]; intros H.
  - exists a, s1. split; [reflexivity | exact H].
  - discriminate H.
Qed.

Lemma lift_returned (A : Type) (o : Outcome A) (s s' : Model_Composite Net) a :
  lift o s = (Returned a, s') -> o = Returned a /\ s' = s.
Proof.
  unfold lift. intros H. inversion H. split; reflexivity.
Qed.

(** ** Records kept *)

Lemma same_records_refl (s : Model_Composite Net) : same_records s s.
Proof.
  repeat split.
Qed.

Lemma same_records_trans (s1 s2 s3 : Model_Composite Net) :
  same_records s1 s2 -> same_records s2 s3 -> same_records s1 s3.
Proof.
  unfold same_records. intros H1 H2.
  decompose [and] H1. decompose [and] H2.
  repeat split; congruence.
Qed.

Lemma same_records_set_net (w : Net) (s : Model_Composite Net) :
  same_records s (set_net w s).
Proof.
  repeat split.
Qed.

Lemma backprop_records (op : Optimizer Input Net) (b : Batch Input) s :
  same_records s (snd (backprop op b s)).
Proof.
  unfold backprop. destruct (op _ _ _); simpl.
  - apply same_records_set_net.
  - apply same_records_refl.
Qed.

Lemma step_scheduler_records (sch : option (Scheduler Net)) (s : Model_Composite Net) :
  same_records s (snd (step_scheduler sch s)).
Proof.
  destruct sch as [f|]; simpl.
  - destruct (f (net s)); simpl.
    + apply same_records_set_net.
    + apply same_records_refl.
  - apply same_records_refl.
Qed.

(** ** Counting correct predictions *)

Lemma agreements_bounds (pred tgt : list Z) :
  (0 <= agreements pred tgt <= len pred)%Z.
Proof.
  unfold len. revert tgt.
  induction pred as [|p ps IH]; intros [|t ts]; simpl agreements;
    try (simpl List.length; lia).
  specialize (IH ts). destruct (p =? t)%Z; simpl List.length; lia.
Qed.


Lemma count_correct_returned (pred tgt : list Z) (c : Z) :
  count_correct pred tgt = Returned c ->
  List.length pred = List.length tgt /\ c = agreements pred tgt.
Proof.
  unfold count_correct.
  destruct (Nat.eqb_spec (List.length pred) (List.length tgt)) as [E|E];
    intros H; inversion H. split; [exact E | reflexivity].
Qed.

(** ** The loop of [model_train] *)

Section TrainLoop.

Variable criterion : Criterion Output.
Variable optimizer : Optimizer Input Net.
Variable scheduler : option (Scheduler Net).

Lemma train_loop_records (bs : list (Batch Input)) :
  forall t s,
    same_records s
      (snd (train_loop forward argmax criterion optimizer scheduler bs t s)).
Proof.
  induction bs as [|b rest IH]; intros t s; simpl.
  - apply same_records_refl.
  - unfold bind at 1. unfold call_self at 1.
    destruct (forward (training s) (net s) (data b)) as [y|e];
      [|apply same_records_refl].
    unfold bind at 1, lift at 1.
    destruct (criterion false y (target b)) as [l|e]; [|apply same_records_refl].
    unfold bind at 1, lift at 1.
    destruct (count_correct (argmax y) (target b)) as [c|e];
      [|apply same_records_refl].
    unfold bind at 1.
    pose proof (backprop_records optimizer b s) as Hb.
    destruct (backprop optimizer b s) as [[[]|e] s1]; simpl in Hb; [|exact Hb].
    unfold bind at 1.
    pose proof (step_scheduler_records scheduler s1) as Hs.
    destruct (step_scheduler scheduler s1) as [[[]|e] s2]; simpl in Hs;
      [|exact (same_records_trans Hb Hs)].
    unfold bind at 1, lift at 1.
    destruct (percent _ _) as [q|e]; [|exact (same_records_trans Hb Hs)].
    eapply same_records_trans; [exact (same_records_trans Hb Hs)|apply IH].
Qed.

Lemma train_loop_returned (bs : list (Batch Input)) :
  forall t s t' s',
    train_loop forward argmax criterion optimizer scheduler bs t s
      = (Returned t', s') ->
    exists steps : list (Q * Z),
      Forall2 (train_step forward argmax criterion (training s)) bs steps /\
      loss_total t' == loss_total t + Qsum (map fst steps) /\
      correct t' = (correct t + Zsum (map snd steps))%Z /\
      processed t' = (processed t + samples bs)%Z.
Proof.
  induction bs as [|b rest IH]; intros t s t' s' H; simpl in H.
  - inversion H; subst. exists []. repeat split.
    + constructor.
    + simpl. ring.
    + simpl. lia.
    + unfold samples. simpl. lia.
  - apply bind_returned in H. destruct H as (y & s1 & Hy & H).
    unfold call_self in Hy. inversion Hy; subst s1. clear Hy.
    rename H1 into Hy.
    apply bind_returned in H. destruct H as (l & s1 & Hl & H).
    apply lift_returned in Hl. destruct Hl as [Hl ->].
    apply bind_returned in H. destruct H as (c & s1 & Hc & H).
    apply lift_returned in Hc. destruct Hc as [Hc ->].
    apply bind_returned in H. destruct H as ([] & s1 & Hb & H).
    apply bind_returned in H. destruct H as ([] & s2 & Hs & H).
    apply bind_returned in H. destruct H as (q & s3 & Hq & H).
    apply lift_returned in Hq. destruct Hq as [Hq ->].
    pose proof (backprop_records optimizer b s) as R1. rewrite Hb in R1.
    pose proof (step_scheduler_records scheduler s1) as R2. rewrite Hs in R2.
    simpl in R1, R2.
    assert (Hmode : training s2 = training s).
    { destruct (same_records_trans R1 R2) as (_ & _ & _ & _ & _ & _ & E & _).
      exact E. }
    apply IH in H. destruct H as (steps & HF & HL & HC & HP).
    simpl in HL, HC, HP. rewrite Hmode in HF.
    exists ((l, c) :: steps). repeat split.
    + constructor; [|exact HF].
      exists (net s), y. simpl. repeat split; assumption.
    + simpl. rewrite HL. ring.
    + simpl. lia.
    + unfold samples in *. simpl. lia.
Qed.

End TrainLoop.

Lemma percent_returned (c p : Z) (q : Q) :
  percent c p = Returned q ->
  p <> 0%Z /\ q = ratio100 c p.
Proof.
  unfold percent. destruct (Z.eqb_spec p 0) as [E|E]; intros H; inversion H.
  split; [exact E | reflexivity].
Qed.

(** ** What a call of [model_train] leaves *)

Section TrainCall.

Variable train_loader : Loader Input.
Variable criterion : Criterion Output.
Variable optimizer : Optimizer Input Net.
Variable scheduler : option (Scheduler Net).

Lemma model_train_returned (s s' : Model_Composite Net) :
  model_train forward argmax train_loader criterion optimizer scheduler s
    = (Returned tt, s') ->
  exists t : Tally,
    train_pass forward argmax criterion train_loader t /\
    processed t <> 0%Z /\
    train_accuracy s' =
      train_accuracy s ++ [ratio100 (correct t) (processed t)] /\
    train_losses s' = train_losses s ++ [loss_total t] /\
    test_accuracy s' = test_accuracy s /\
    test_losses s' = test_losses s /\
    console s' = console s.
Proof.
  unfold model_train. intros H.
  apply bind_returned in H. destruct H as ([] & s0 & H0 & H).
  unfold modify in H0. inversion H0; subst s0. clear H0.
  apply bind_returned in H. destruct H as (t & s1 & Hloop & H).
  apply bind_returned in H. destruct H as (acc & s2 & Hacc & H).
  apply lift_returned in Hacc. destruct Hacc as [Hacc ->].
  apply bind_returned in H. destruct H as ([] & s3 & H3 & H).
  unfold modify in H3, H. inversion H3; subst s3. inversion H; subst s'.
  clear H3 H.
  pose proof (train_loop_records criterion optimizer scheduler
                (batches train_loader) (tally0) (set_training true s)) as R.
  rewrite Hloop in R. simpl in R.
  destruct R as (R1 & R2 & R3 & R4 & _ & _ & _ & R8).
  apply train_loop_returned in Hloop.
  destruct Hloop as (steps & HF & HL & HC & HP).
  apply percent_returned in Hacc. destruct Hacc as [Hnz ->].
  exists t. simpl in *. split.
  - exists steps. repeat split; try assumption. rewrite HL. ring.
  - repeat split; try assumption; congruence.
Qed.

Lemma model_train_raised (s s' : Model_Composite Net) (e : PyErr) :
  model_train forward argmax train_loader criterion optimizer scheduler s
    = (Raised e, s') ->
  train_accuracy s' = train_accuracy s /\
  train_losses s' = train_losses s /\
  test_accuracy s' = test_accuracy s /\
  test_losses s' = test_losses s.
Proof.
  unfold model_train. intros H.
  unfold bind at 1 in H. unfold modify at 1 in H.
  pose proof (train_loop_records criterion optimizer scheduler
                (batches train_loader) (tally0) (set_training true s)) as R.
  unfold bind at 1 in H.
  destruct (train_loop _ _ _ _ _ _ _ _) as [[t|e1] s1]; simpl in R;
    destruct R as (R1 & R2 & R3 & R4 & _).
  - unfold bind at 1, lift at 1 in H.
    destruct (percent _ _) as [q|e1].
    + discriminate H.
    + inversion H; subst. simpl in *. repeat split; assumption.
  - inversion H; subst. simpl in *. repeat split; assumption.
Qed.

End TrainCall.

(** ** The loop of [model_test] *)

Lemma test_loop_state (criterion : Criterion Output) (bs : list (Batch Input)) :
  forall t s, snd (test_loop forward argmax criterion bs t s) = s.
Proof.
  induction bs as [|b rest IH]; intros t s; simpl.
  - reflexivity.
  - unfold bind at 1, call_self at 1.
    destruct (forward (training s) (net s) (data b)) as [y|e]; [|reflexivity].
    unfold bind at 1, lift at 1.
    destruct (test_batch_loss criterion y (target b)) as [l|e]; [|reflexivity].
    unfold bind at 1, lift at 1.
    destruct (count_correct (argmax y) (target b)) as [c|e]; [|reflexivity].
    apply IH.
Qed.

Lemma test_loop_returned (criterion : Criterion Output) (bs : list (Batch Input)) :
  forall t s t' s',
    test_loop forward argmax criterion bs t s = (Returned t', s') ->
    exists steps : list (Q * Z),
      Forall2 (test_step forward argmax criterion (training s) (net s)) bs steps /\
      loss_total t' == loss_total t + Qsum (map fst steps) /\
      correct t' = (correct t + Zsum (map snd steps))%Z /\
      processed t' = (processed t + samples bs)%Z.
Proof.
  induction bs as [|b rest IH]; intros t s t' s' H; simpl in H.
  - inversion H; subst. exists []. repeat split.
    + constructor.
    + simpl. ring.
    + simpl. lia.
    + unfold samples. simpl. lia.
  - apply bind_returned in H. destruct H as (y & s1 & Hy & H).
    unfold call_self in Hy. inversion Hy; subst s1. clear Hy.
    rename H1 into Hy.
    apply bind_returned in H. destruct H as (l & s1 & Hl & H).
    apply lift_returned in Hl. destruct Hl as [Hl ->].
    apply bind_returned in H. destruct H as (c & s1 & Hc & H).
    apply lift_returned in Hc. destruct Hc as [Hc ->].
    apply IH in H. destruct H as (steps & HF & HL & HC & HP).
    simpl in HL, HC, HP.
    exists ((l, c) :: steps). repeat split.
    + constructor; [|exact HF].
      exists y. simpl. repeat split; assumption.
    + simpl. rewrite HL. ring.
    + simpl. lia.
    + unfold samples in *. simpl. lia.
Qed.

(** ** What a call of [model_test] leaves *)

Section TestCall.

Variable test_loader : Loader Input.
Variable criterion : Criterion Output.

Lemma test_pass_intro (s s1 : Model_Composite Net) (t : Tally) :
  test_loop forward argmax criterion (batches test_loader) (tally0)
            (set_training false s) = (Returned t, s1) ->
  s1 = set_training false s /\ test_pass forward argmax criterion test_loader s t.
Proof.
  intros H. split.
  - pose proof (test_loop_state criterion (batches test_loader) (tally0)
                                (set_training false s)) as E.
    rewrite H in E. exact E.
  - apply test_loop_returned in H. destruct H as (steps & HF & HL & HC & HP).
    exists steps. simpl in *. repeat split; try assumption.
    rewrite HL. ring.
Qed.

Lemma last_item_app (A : Type) (l : list A) (a : A) :
  last_item (l ++ [a]) = Returned a.
Proof.
  induction l as [|x l IH]; simpl.
  - reflexivity.
  - rewrite IH. destruct (l ++ [a]) eqn:E; [|reflexivity].
    destruct l; discriminate E.
Qed.

Lemma true_div_returned (a b : Z) (q : Q) :
  true_div a b = Returned q -> b <> 0%Z /\ q = (inject_Z a / inject_Z b)%Q.
Proof.
  unfold true_div. destruct (Z.eqb_spec b 0) as [E|E]; intros H; inversion H.
  split; [exact E | reflexivity].
Qed.

Lemma float_div_returned (x y q : Q) :
  float_div x y = Returned q -> ~ y == 0 /\ q = (x / y)%Q.
Proof.
  unfold float_div. destruct (Qeq_bool y 0) eqn:E; intros H; inversion H.
  split; [|reflexivity].
  intros Hy. apply Qeq_bool_iff in Hy. congruence.
Qed.

Lemma model_test_returned (s s' : Model_Composite Net) :
  model_test forward argmax test_loader criterion s = (Returned tt, s') ->
  exists (t : Tally) (bsz : Z) (a : Q),
    test_pass forward argmax criterion test_loader s t /\
    batch_size test_loader = Some bsz /\
    bsz <> 0%Z /\
    dataset_len test_loader <> 0%nat /\
    last_item (train_accuracy s) = Returned a /\
    s' = tested test_loader t bsz a s.
Proof.
  unfold model_test. intros H.
  apply bind_returned in H. destruct H as ([] & s0 & H0 & H).
  unfold modify in H0. inversion H0; subst s0. clear H0.
  apply bind_returned in H. destruct H as (t & s1 & Hloop & H).
  apply test_pass_intro in Hloop. destruct Hloop as [-> Hpass].
  apply bind_returned in H. destruct H as ([] & s2 & H2 & H).
  unfold modify in H2. inversion H2; subst s2. clear H2.
  apply bind_returned in H. destruct H as (bsz & s3 & Hb & H).
  apply lift_returned in Hb. destruct Hb as [Hb ->].
  apply bind_returned in H. destruct H as (it & s3 & Hi & H).
  apply lift_returned in Hi. destruct Hi as [Hi ->].
  apply bind_returned in H. destruct H as (avg & s3 & Ha & H).
  apply lift_returned in Ha. destruct Ha as [Ha ->].
  apply bind_returned in H. destruct H as (acc & s3 & Hacc & H).
  apply lift_returned in Hacc. destruct Hacc as [Hacc ->].
  apply bind_returned in H. destruct H as ([] & s3 & H3 & H).
  unfold modify in H3. inversion H3; subst s3. clear H3.
  apply bind_returned in H. destruct H as (shown & s3 & Hsh & H).
  apply lift_returned in Hsh. destruct Hsh as [Hsh ->].
  apply bind_returned in H. destruct H as (lt & s3 & Hlt & H).
  apply bind_returned in Hlt. destruct Hlt as (l1 & s4 & Hg & Hlt).
  unfold gets in Hg. inversion Hg; subst l1 s4. clear Hg.
  apply lift_returned in Hlt. destruct Hlt as [Hlt ->].
  apply bind_returned in H. destruct H as (ltr & s3 & Hltr & H).
  apply bind_returned in Hltr. destruct Hltr as (l1 & s4 & Hg & Hltr).
  unfold gets in Hg. inversion Hg; subst l1 s4. clear Hg.
  apply lift_returned in Hltr. destruct Hltr as [Hltr ->].
  unfold modify in H. inversion H; subst s'. clear H.
  simpl in Hlt, Hltr. rewrite last_item_app in Hlt. inversion Hlt; subst lt.
  apply percent_returned in Hacc. destruct Hacc as [Hn ->].
  apply percent_returned in Hsh. destruct Hsh as [_ ->].
  apply true_div_returned in Hi. destruct Hi as [Hbz ->].
  apply float_div_returned in Ha. destruct Ha as [_ ->].
  unfold read_batch_size in Hb.
  destruct (batch_size test_loader) as [b|] eqn:Eb; inversion Hb; subst b.
  exists t, bsz, ltr. repeat split; try assumption.
  lia.
Qed.

(** Whatever the outcome, the training records stay and the test accuracy
    either stays or gets the accuracy of the pass. *)
Lemma model_test_any (s s' : Model_Composite Net) (o : Outcome unit) :
  model_test forward argmax test_loader criterion s = (o, s') ->
  train_accuracy s' = train_accuracy s /\
  train_losses s' = train_losses s /\
  (test_accuracy s' = test_accuracy s \/
   exists t : Tally,
     test_pass forward argmax criterion test_loader s t /\
     dataset_len test_loader <> 0%nat /\
     test_accuracy s' =
       test_accuracy s ++ [ratio100 (correct t) (Z.of_nat (dataset_len test_loader))]).
Proof.
  unfold model_test. intros H.
  unfold bind at 1, modify at 1 in H.
  unfold bind at 1 in H.
  destruct (test_loop _ _ _ _ _ _) as [[t|e] s1] eqn:Hloop.
  2:{ pose proof (test_loop_state criterion (batches test_loader) (tally0)
                                  (set_training false s)) as E.
      rewrite Hloop in E. simpl in E. subst s1.
      inversion H; subst. simpl. auto. }
  apply test_pass_intro in Hloop. destruct Hloop as [-> Hpass].
  unfold bind at 1, modify at 1 in H.
  unfold bind at 1, lift at 1 in H.
  destruct (read_batch_size test_loader) as [bsz|e];
    [|inversion H; subst; simpl; auto].
  unfold bind at 1, lift at 1 in H.
  destruct (true_div _ bsz) as [it|e]; [|inversion H; subst; simpl; auto].
  unfold bind at 1, lift at 1 in H.
  destruct (float_div _ it) as [avg|e]; [|inversion H; subst; simpl; auto].
  unfold bind at 1, lift at 1 in H.
  destruct (percent _ _) as [acc|e] eqn:Hacc;
    [|inversion H; subst; simpl; auto].
  apply percent_returned in Hacc. destruct Hacc as [Hn ->].
  assert (Hlen : dataset_len test_loader <> 0%nat) by lia.
  unfold bind at 1, modify at 1 in H.
  unfold bind at 1, lift at 1 in H.
  unfold bind at 1 in H. unfold bind at 1 in H.
  unfold gets at 1 in H. unfold lift at 1 in H.
  cbn [test_accuracy append_test_accuracy] in H.
  rewrite last_item_app in H.
  unfold bind at 1 in H. unfold bind at 1 in H.
  unfold gets at 1 in H. unfold lift at 1 in H.
  destruct (last_item _) as [a|e];
    inversion H; subst; simpl;
    (split; [reflexivity|]); (split; [reflexivity|]);
    right; exists t; auto.
Qed.

(** Before any training an evaluation that gets as far as its report raises
    [IndexError]; the pass and the two divisions are the only things that can
    fail before. *)
Lemma model_test_untrained (s : Model_Composite Net) (t : Tally)
      (s1 : Model_Composite Net) (bsz : Z) :
  train_accuracy s = [] ->
  test_loop forward argmax criterion (batches test_loader) (tally0)
            (set_training false s) = (Returned t, s1) ->
  batch_size test_loader = Some bsz ->
  bsz <> 0%Z ->
  dataset_len test_loader <> 0%nat ->
  fst (model_test forward argmax test_loader criterion s) = Raised IndexError.
Proof.
  intros Hempty Hloop Hb Hbz Hn.
  pose proof (test_pass_intro _ Hloop) as [-> _].
  unfold model_test.
  unfold bind at 1, modify at 1.
  unfold bind at 1. rewrite Hloop.
  unfold bind at 1, modify at 1.
  unfold read_batch_size. rewrite Hb.
  unfold bind at 1, lift at 1.
  unfold true_div. destruct (Z.eqb_spec bsz 0) as [E|_]; [contradiction|].
  unfold bind at 1, lift at 1.
  unfold float_div.
  destruct (Qeq_bool _ 0) eqn:Ez.
  { exfalso. apply Qeq_bool_iff in Ez.
    apply Hn. unfold Qeq, Qdiv, Qmult, Qinv in Ez. simpl in Ez.
    destruct bsz as [|b|b]; simpl in Ez; try contradiction; lia. }
  unfold bind at 1, lift at 1.
  unfold percent. destruct (Z.eqb_spec (Z.of_nat (dataset_len test_loader)) 0) as [E|_];
    [lia|].
  unfold bind at 1, modify at 1.
  unfold bind at 1, lift at 1.
  unfold bind at 1. unfold bind at 1. unfold gets at 1. unfold lift at 1.
  unfold bind, gets, lift, modify.
  cbn [test_accuracy train_accuracy append_test_accuracy append_test_losses
       set_training].
  rewrite last_item_app, Hempty. reflexivity.
Qed.

End TestCall.

(** ** Percentages *)

Lemma ratio100_bounds (c p : Z) :
  (0 <= c <= p)%Z -> p <> 0%Z -> 0 <= ratio100 c p <= 100.
Proof.
  intros Hc Hp. unfold ratio100.
  assert (Hpos : 0 < inject_Z p).
  { replace 0 with (inject_Z 0) by reflexivity. rewrite <- Zlt_Qlt. lia. }
  split.
  - apply Qle_shift_div_l; [exact Hpos|].
    rewrite Qmult_0_l.
    replace 0 with (inject_Z 0) by reflexivity. rewrite <- Zle_Qle. lia.
  - apply Qle_shift_div_r; [exact Hpos|].
    replace 100 with (inject_Z 100) by reflexivity.
    rewrite <- inject_Z_mult, <- Zle_Qle. lia.
Qed.

Lemma train_pass_correct_le (criterion : Criterion Output) (mode : bool)
      (bs : list (Batch Input)) (steps : list (Q * Z)) :
  Forall (@paired Input) bs ->
  Forall2 (train_step forward argmax criterion mode) bs steps ->
  (0 <= Zsum (map snd steps) <= samples bs)%Z.
Proof.
  intros Hp HF. unfold samples.
  induction HF as [|b [l c] bs steps Hstep HF IH]; simpl.
  - lia.
  - inversion Hp as [|? ? Hb Hrest]; subst.
    specialize (IH Hrest).
    destruct Hstep as (w & y & _ & _ & Hc). simpl in Hc.
    apply count_correct_returned in Hc. destruct Hc as [Hlen ->].
    pose proof (agreements_bounds (argmax y) (target b)) as Hb'.
    unfold paired in Hb. unfold len in *. lia.
Qed.

Lemma test_pass_correct_le (criterion : Criterion Output) (mode : bool) (w : Net)
      (bs : list (Batch Input)) (steps : list (Q * Z)) :
  Forall (@paired Input) bs ->
  Forall2 (test_step forward argmax criterion mode w) bs steps ->
  (0 <= Zsum (map snd steps) <= samples bs)%Z.
Proof.
  intros Hp HF. unfold samples.
  induction HF as [|b [l c] bs steps Hstep HF IH]; simpl.
  - lia.
  - inversion Hp as [|? ? Hb Hrest]; subst.
    specialize (IH Hrest).
    destruct Hstep as (y & _ & _ & Hc). simpl in Hc.
    apply count_correct_returned in Hc. destruct Hc as [Hlen ->].
    pose proof (agreements_bounds (argmax y) (target b)) as Hb'.
    unfold paired in Hb. unfold len in *. lia.
Qed.

(** ** [get_norm] and the constructor *)



(** C7: with a tag that is none of ['bn'], ['ln'], ['gn'], [get_norm] gives
    [None] for every channel count; being a pure function of the instance it
    neither raises nor changes anything. *)
Theorem get_norm_unknown_tag (self : Model_Composite Net) (n_channels : Z) :
  norm_type self <> "bn"%string ->
  norm_type self <> "ln"%string ->
  norm_type self <> "gn"%string ->
  get_norm self n_channels = None.
Proof.
  intros Hbn Hln Hgn. unfold get_norm.
  apply String.eqb_neq in Hbn, Hln, Hgn.
  rewrite Hbn, Hln, Hgn. reflexivity.
Qed.

(** ** When a training pass goes through

    With collaborators that do not raise, batches that pair inputs and
    targets and a first batch that is not empty, [model_train] returns. *)

Section TrainReturns.

Variable criterion : Criterion Output.
Variable optimizer : Optimizer Input Net.
Variable scheduler : option (Scheduler Net).

Hypothesis forward_total :
  forall mode w xs,
    exists y, forward mode w xs = Returned y /\
              List.length (argmax y) = List.length xs.
Hypothesis criterion_total :
  forall y tgt, exists l, criterion false y tgt = Returned l.
Hypothesis optimizer_total :
  forall w xs tgt, exists w', optimizer w xs tgt = Returned w'.
Hypothesis scheduler_total :
  forall f, scheduler = Some f -> forall w, exists w', f w = Returned w'.

Lemma step_scheduler_returns (s : Model_Composite Net) :
  exists s', step_scheduler scheduler s = (Returned tt, s').
Proof.
  unfold step_scheduler. destruct scheduler as [f|] eqn:E.
  - destruct (scheduler_total eq_refl (net s)) as [w' Hw]. rewrite Hw.
    eexists. reflexivity.
  - eexists. reflexivity.
Qed.

Lemma train_loop_returns (bs : list (Batch Input)) :
  forall t s,
    Forall (@paired Input) bs ->
    (0 <= processed t)%Z ->
    match bs with
    | [] => True
    | b :: _ => data b <> []
    end \/ (0 < processed t)%Z ->
    exists t' s',
      train_loop forward argmax criterion optimizer scheduler bs t s
        = (Returned t', s') /\
      (processed t <= processed t')%Z /\
      (bs <> [] -> 0 < processed t')%Z.
Proof.
  induction bs as [|b rest IH]; intros t s Hp Hnn Hfirst.
  - exists t, s. repeat split; [lia | congruence].
  - inversion Hp as [|? ? Hb Hrest]; subst. unfold paired in Hb.
    assert (Hpos : (0 < processed t + len (data b))%Z).
    { unfold len. destruct Hfirst as [Hne|Hpos]; [|lia].
      destruct (data b); [congruence | simpl List.length; lia]. }
    destruct (forward_total (training s) (net s) (data b)) as (y & Hy & Hrows).
    destruct (criterion_total y (target b)) as (l & Hl).
    destruct (optimizer_total (net s) (data b) (target b)) as (w' & Hw).
    destruct (step_scheduler_returns (set_net w' s)) as (s2 & Hs).
    destruct (IH (mkTally (loss_total t + l)
                          (correct t + agreements (argmax y) (target b))
                          (processed t + len (data b))) s2 Hrest)
      as (t' & s' & Hrun & Hle & _).
    { simpl. lia. }
    { right. simpl. exact Hpos. }
    exists t', s'. simpl in Hle. split; [|split; [unfold len in *; lia | lia]].
    simpl. unfold bind at 1, call_self. rewrite Hy.
    unfold bind at 1, lift at 1. rewrite Hl.
    unfold bind at 1, lift at 1, count_correct.
    rewrite Hrows, <- Hb, Nat.eqb_refl.
    unfold bind at 1, backprop. rewrite Hw.
    unfold bind at 1. rewrite Hs.
    unfold bind at 1, lift at 1, percent.
    destruct (Z.eqb_spec (processed t + len (data b)) 0) as [E|_]; [lia|].
    exact Hrun.
Qed.

Lemma model_train_returns (train_loader : Loader Input) (b : Batch Input)
      (rest : list (Batch Input)) (s : Model_Composite Net) :
  batches train_loader = b :: rest ->
  data b <> [] ->
  Forall (@paired Input) (batches train_loader) ->
  exists s',
    model_train forward argmax train_loader criterion optimizer scheduler s
      = (Returned tt, s').
Proof.
  intros Hbs Hne Hp.
  destruct (train_loop_returns (tally0) (set_training true s) Hp)
    as (t' & s1 & Hrun & _ & Hpos).
  { simpl. lia. }
  { left. rewrite Hbs. exact Hne. }
  assert (Hnz : (0 < processed t')%Z) by (apply Hpos; rewrite Hbs; discriminate).
  unfold model_train.
  unfold bind at 1, modify at 1.
  unfold bind at 1. rewrite Hrun.
  unfold bind at 1, lift at 1, percent.
  destruct (Z.eqb_spec (processed t') 0) as [E|_]; [lia|].
  eexists. reflexivity.
Qed.

End TrainReturns.

(** ** The histories *)

(** C1: after any sequence of calls of [model_train] and [model_test] that all
    returned, each training history has grown by the number of [model_train]
    calls and each test history by the number of [model_test] calls (so a
    single call adds exactly one entry to both histories of its kind and none
    to the others), and histories of equal length are of equal length
    afterwards. *)
Theorem history_lengths_after_calls (cs : list (Call Input Output Net))
        (s s' : Model_Composite Net) :
  run_calls forward argmax cs s = (Returned tt, s') ->
  (List.length (train_accuracy s') =
     List.length (train_accuracy s) + count_train cs)%nat /\
  (List.length (train_losses s') =
     List.length (train_losses s) + count_train cs)%nat /\
  (List.length (test_accuracy s') =
     List.length (test_accuracy s) + count_test cs)%nat /\
  (List.length (test_losses s') =
     List.length (test_losses s) + count_test cs)%nat /\
  (List.length (train_losses s) = List.length (train_accuracy s) ->
   List.length (train_losses s') = List.length (train_accuracy s')) /\
  (List.length (test_losses s) = List.length (test_accuracy s) ->
   List.length (test_losses s') = List.length (test_accuracy s')).
Proof.
  intros H.
  assert (G :
    (List.length (train_accuracy s') =
       List.length (train_accuracy s) + count_train cs)%nat /\
    (List.length (train_losses s') =
       List.length (train_losses s) + count_train cs)%nat /\
    (List.length (test_accuracy s') =
       List.length (test_accuracy s) + count_test cs)%nat /\
    (List.length (test_losses s') =
       List.length (test_losses s) + count_test cs)%nat).
  { revert s H. unfold count_train, count_test.
    induction cs as [|c cs IH]; intros s H; simpl in H.
    - inversion H; subst. simpl. lia.
    - apply bind_returned in H. destruct H as ([] & s1 & Hc & H).
      apply IH in H. destruct H as (H1 & H2 & H3 & H4).
      destruct c as [l cr op sch | l cr]; simpl in Hc |- *.
      + apply model_train_returned in Hc.
        destruct Hc as (t & _ & _ & E1 & E2 & E3 & E4 & _).
        rewrite H1, H2, H3, H4, E1, E2, E3, E4, !length_app. simpl. lia.
      + apply model_test_returned in Hc.
        destruct Hc as (t & bsz & a & _ & _ & _ & _ & _ & ->) in H1, H2, H3, H4.
        rewrite H1, H2, H3, H4. unfold tested. simpl.
        rewrite !length_app. simpl. lia. }
  destruct G as (G1 & G2 & G3 & G4).
  repeat split; try assumption; lia.
Qed.

(** C2: whatever a call of [model_train] or [model_test] does, it appends at
    most one value to the accuracy history of its kind, and that value is
    between 0 and 100, provided the batches pair every input with a target
    and, for [model_test], the pass has no more samples than the dataset.  (A
    pass without a sample appends nothing: the division raises.) *)
Theorem accuracy_within_bounds (c : Call Input Output Net)
        (s s' : Model_Composite Net) (o : Outcome unit) :
  sound_source c ->
  run_call forward argmax c s = (o, s') ->
  appended_percentage (train_accuracy s) (train_accuracy s') /\
  appended_percentage (test_accuracy s) (test_accuracy s').
Proof.
  intros Hsrc H.
  destruct c as [l cr op sch | l cr]; simpl in Hsrc, H.
  - destruct o as [[]|e].
    + apply model_train_returned in H.
      destruct H as (t & (steps & HF & _ & HC & HP) & Hnz & E1 & _ & E3 & _).
      split; [right | left; exact E3].
      exists (ratio100 (correct t) (processed t)). split; [exact E1|].
      apply ratio100_bounds; [|exact Hnz].
      rewrite HC, HP. eapply train_pass_correct_le; eassumption.
    + apply model_train_raised in H. destruct H as (E1 & _ & E3 & _).
      split; left; assumption.
  - destruct Hsrc as [Hp Hcover].
    apply model_test_any in H. destruct H as (E1 & _ & [E3 | E3]).
    + split; left; assumption.
    + split; [left; exact E1 | right].
      destruct E3 as (t & (steps & HF & _ & HC & HP) & Hn & E3).
      exists (ratio100 (correct t) (Z.of_nat (dataset_len l))).
      split; [exact E3|].
      apply ratio100_bounds; [|lia].
      pose proof (test_pass_correct_le Hp HF) as B.
      rewrite HC. lia.
Qed.

(** C3: on an instance whose [train_accuracy] is empty [model_test] never
    returns: it raises.  When the pass and the divisions go through, what it
    raises is the [IndexError] of [self.train_accuracy[-1]]. *)
Theorem model_test_before_training_raises (test_loader : Loader Input)
        (criterion : Criterion Output) (s : Model_Composite Net) :
  train_accuracy s = [] ->
  (exists e : PyErr,
     fst (model_test forward argmax test_loader criterion s) = Raised e) /\
  (forall t s1 bsz,
     test_loop forward argmax criterion (batches test_loader) (tally0)
               (set_training false s) = (Returned t, s1) ->
     batch_size test_loader = Some bsz ->
     bsz <> 0%Z ->
     dataset_len test_loader <> 0%nat ->
     fst (model_test forward argmax test_loader criterion s) = Raised IndexError).
Proof.
  intros Hempty. split.
  - destruct (model_test forward argmax test_loader criterion s)
      as [[[]|e] s'] eqn:H.
    + apply model_test_returned in H.
      destruct H as (t & bsz & a & _ & _ & _ & _ & Hlast & _).
      rewrite Hempty in Hlast. discriminate Hlast.
    + exists e. reflexivity.
  - intros t s1 bsz Hloop Hb Hbz Hn.
    eapply model_test_untrained; eassumption.
Qed.

(** ** The loss of an evaluation *)

Lemma unit_losses_sum (criterion : Criterion Output) (mode : bool) (w : Net)
      (bs : list (Batch Input)) (steps : list (Q * Z)) :
  (forall y tgt v, test_batch_loss criterion y tgt = Returned v -> v == 1) ->
  Forall2 (test_step forward argmax criterion mode w) bs steps ->
  Qsum (map fst steps) == inject_Z (len bs).
Proof.
  intros Hone HF. unfold len.
  induction HF as [|b [l c] bs steps Hstep HF IH].
  - reflexivity.
  - destruct Hstep as (y & _ & Hl & _). simpl in Hl. apply Hone in Hl.
    cbn [map fst Qsum List.length]. rewrite IH, Hl.
    rewrite Nat2Z.inj_succ. unfold Z.succ. rewrite inject_Z_plus. ring.
Qed.

(** C4, as the code has it: a call of [model_test] that returns has appended
    to [test_losses] the sum of the batch losses as accumulated, not
    normalised; the quotient of that sum by [dataset_size / batch_size] is
    computed afterwards and goes to the printed report only.  For a dataset of
    100 samples in 5 batches of 20 whose losses are 1 each, the history gets 5
    and the report shows 1. *)
Theorem model_test_loss_bookkeeping (test_loader : Loader Input)
        (criterion : Criterion Output) (s s' : Model_Composite Net) :
  model_test forward argmax test_loader criterion s = (Returned tt, s') ->
  exists (t : Tally) (bsz : Z) (r : Report),
    test_pass forward argmax criterion test_loader s t /\
    batch_size test_loader = Some bsz /\
    test_losses s' = test_losses s ++ [loss_total t] /\
    console s' = console s ++ [r] /\
    average_loss r =
      (loss_total t / (inject_Z (Z.of_nat (dataset_len test_loader)) / inject_Z bsz))%Q /\
    (List.length (batches test_loader) = 5%nat ->
     dataset_len test_loader = 100%nat ->
     bsz = 20%Z ->
     (forall y tgt v, test_batch_loss criterion y tgt = Returned v -> v == 1) ->
     loss_total t == 5 /\ average_loss r == 1).
Proof.
  intros H. apply model_test_returned in H.
  destruct H as (t & bsz & a & Hpass & Hb & Hbz & Hn & Hlast & ->).
  exists t, bsz. eexists. split; [exact Hpass|]. split; [exact Hb|].
  unfold tested. cbn [test_losses console print append_test_accuracy
                      append_test_losses set_training average_loss].
  split; [reflexivity|]. split; [reflexivity|]. split; [reflexivity|].
  intros H5 H100 H20 Hone.
  destruct Hpass as (steps & HF & HL & _).
  assert (E : loss_total t == 5).
  { rewrite HL. rewrite (unit_losses_sum Hone HF). unfold len. rewrite H5.
    reflexivity. }
  split; [exact E|].
  cbn [average_loss]. rewrite H100, H20, E. reflexivity.
Qed.

(** C9: on a batch of [model_test], when the loss function called with
    [reduction='sum'] returns, its value is added to the running loss; when
    that call raises, the loss function is called again without the argument
    and the value of this second call is added; when the second call raises
    too, its exception ends the pass. *)
Theorem test_loss_fallback (criterion : Criterion Output) (b : Batch Input)
        (rest : list (Batch Input)) (t : Tally) (s : Model_Composite Net)
        (y : Output) (c : Z) :
  forward (training s) (net s) (data b) = Returned y ->
  count_correct (argmax y) (target b) = Returned c ->
  (forall v,
     criterion true y (target b) = Returned v ->
     test_loop forward argmax criterion (b :: rest) t s =
     test_loop forward argmax criterion rest
       (mkTally (loss_total t + v) (correct t + c) (processed t + len (data b))) s) /\
  (forall e v,
     criterion true y (target b) = Raised e ->
     criterion false y (target b) = Returned v ->
     test_loop forward argmax criterion (b :: rest) t s =
     test_loop forward argmax criterion rest
       (mkTally (loss_total t + v) (correct t + c) (processed t + len (data b))) s) /\
  (forall e e',
     criterion true y (target b) = Raised e ->
     criterion false y (target b) = Raised e' ->
     test_loop forward argmax criterion (b :: rest) t s = (Raised e', s)).
Proof.
  intros Hy Hc.
  repeat split; intros; simpl;
    unfold bind, call_self, lift, test_batch_loss;
    rewrite Hy; rewrite H; try rewrite H0; try rewrite Hc; reflexivity.
Qed.

(** A loss function that rejects [reduction] on every batch is used through
    its plain signature for the whole pass. *)
Lemma test_loop_plain_loss (criterion : Criterion Output)
      (bs : list (Batch Input)) :
  (forall y tgt, returns (criterion true y tgt) = false) ->
  forall t s,
    test_loop forward argmax criterion bs t s =
    test_loop forward argmax (fun _ => criterion false) bs t s.
Proof.
  intros Hrej. induction bs as [|b rest IH]; intros t s; simpl.
  - reflexivity.
  - unfold bind, call_self, lift.
    destruct (forward (training s) (net s) (data b)) as [y|e]; [|reflexivity].
    unfold test_batch_loss. specialize (Hrej y (target b)).
    destruct (criterion true y (target b)) as [v|e]; [discriminate Hrej|].
    destruct (criterion false y (target b)) as [v|e']; [|reflexivity].
    destruct (count_correct _ _); [apply IH | reflexivity].
Qed.

(** ** The aggregates of a training pass *)


(** ** Picking the misclassified samples *)

Lemma nonzero_from_shift (v : list Z) :
  forall i, nonzero_from (S i) v = map S (nonzero_from i v).
Proof.
  induction v as [|x v IH]; intros i; simpl.
  - reflexivity.
  - destruct (x =? 0)%Z; simpl; rewrite IH; reflexivity.
Qed.

Lemma gather_shift (A : Type) (x : A) (xs : list A) (rows : list nat) :
  gather (x :: xs) (map S rows) = gather xs rows.
Proof.
  induction rows as [|i rows IH]; simpl.
  - reflexivity.
  - rewrite IH. reflexivity.
Qed.

Lemma gather_nonzero (A : Type) (zs : list A) :
  forall flags,
    List.length flags = List.length zs ->
    gather zs (nonzero (where_ flags 1 0)) = Returned (kept zs flags).
Proof.
  unfold nonzero, kept.
  induction zs as [|z zs IH]; intros [|f flags] Hlen; try discriminate Hlen.
  - reflexivity.
  - injection Hlen as Hlen. specialize (IH flags Hlen).
    destruct f; simpl.
    + rewrite nonzero_from_shift, gather_shift. simpl in IH. rewrite IH.
      reflexivity.
    + rewrite nonzero_from_shift, gather_shift. exact IH.
Qed.

Lemma gather_firstn (A : Type) (xs : list A) (k : nat) :
  forall rows l,
    gather xs rows = Returned l ->
    gather xs (firstn k rows) = Returned (firstn k l).
Proof.
  induction k as [|k IH]; intros rows l H.
  - reflexivity.
  - destruct rows as [|i rows]; simpl in H.
    + inversion H. reflexivity.
    + destruct (nth_error xs i) as [a|] eqn:Ha; [|discriminate H].
      destruct (gather xs rows) as [l'|e] eqn:Hg; [|discriminate H].
      inversion H; subst l. simpl. rewrite Ha, (IH rows l' Hg). reflexivity.
Qed.

Lemma index_with_squeeze (A : Type) (xs : list A) (rows : list nat) (l : list A) :
  gather xs rows = Returned l ->
  exists p, index_with xs (squeeze rows) = Returned p /\ items p = l.
Proof.
  intros H. destruct rows as [|i [|j rows]].
  - simpl in *. inversion H. exists (Several []). split; reflexivity.
  - simpl in *. destruct (nth_error xs i) as [a|]; [|discriminate H].
    inversion H. exists (Single a). split; reflexivity.
  - unfold squeeze, index_with. rewrite H. exists (Several l).
    split; reflexivity.
Qed.

Lemma kept_combine (A B : Type) (xs : list A) :
  forall (ys : list B) flags,
    List.length ys = List.length xs ->
    kept (combine xs ys) flags = combine (kept xs flags) (kept ys flags).
Proof.
  unfold kept.
  induction xs as [|x xs IH]; intros [|y ys] flags Hlen; try discriminate Hlen.
  - reflexivity.
  - injection Hlen as Hlen. destruct flags as [|f flags]; [reflexivity|].
    specialize (IH ys flags Hlen). destruct f; simpl; rewrite IH; reflexivity.
Qed.

Lemma kept_map (A : Type) (f : A -> bool) (zs : list A) :
  kept zs (map f zs) = filter f zs.
Proof.
  unfold kept. induction zs as [|z zs IH]; simpl.
  - reflexivity.
  - destruct (f z); simpl; rewrite IH; reflexivity.
Qed.

Lemma wrong_flags (xs : list Input) :
  forall tgt pred,
    List.length tgt = List.length xs ->
    List.length pred = List.length xs ->
    map negb (eq_rows pred tgt) =
    map (fun r : Input * Z * Z => negb (snd r =? snd (fst r))%Z)
        (combine (combine xs tgt) pred).
Proof.
  induction xs as [|x xs IH]; intros [|t tgt] [|p pred] Ht Hp;
    try discriminate Ht; try discriminate Hp.
  - reflexivity.
  - injection Ht as Ht. injection Hp as Hp. simpl.
    rewrite (IH tgt pred Ht Hp). reflexivity.
Qed.

Lemma eq_rows_length (a : list Z) :
  forall b, List.length b = List.length a -> List.length (eq_rows a b) = List.length a.
Proof.
  induction a as [|x a IH]; intros [|y b] H; try discriminate H.
  - reflexivity.
  - injection H as H. simpl. rewrite (IH b H). reflexivity.
Qed.

Lemma misclassified_le (xs : list Input) (tgt pred : list Z) :
  (List.length (misclassified xs tgt pred) <= List.length xs)%nat.
Proof.
  unfold misclassified.
  etransitivity; [apply filter_length_le|].
  rewrite !length_combine. lia.
Qed.

(** C8, for a non-negative [top_n]: [get_incorrect_pred] looks at the first
    batch of the loader only and returns, in the order of the batch, the
    first [top_n] of its misclassified samples with their targets and
    predictions: at most [top_n] triples, at most as many as the batch has
    samples, and all the misclassified ones when there are fewer than
    [top_n]. *)
Theorem get_incorrect_pred_first_misclassified (test_loader : Loader Input)
        (b : Batch Input) (rest : list (Batch Input)) (top_n : Z)
        (s : Model_Composite Net) (y : Output) :
  batches test_loader = b :: rest ->
  forward (training s) (net s) (data b) = Returned y ->
  List.length (argmax y) = List.length (data b) ->
  paired b ->
  (0 <= top_n)%Z ->
  exists r,
    get_incorrect_pred forward argmax test_loader top_n s = (Returned r, s) /\
    triples r =
      firstn (Z.to_nat top_n) (misclassified (data b) (target b) (argmax y)) /\
    (len (triples r) <= top_n)%Z /\
    (len (triples r) <= len (data b))%Z /\
    len (triples r) =
      Z.min top_n (len (misclassified (data b) (target b) (argmax y))) /\
    get_incorrect_pred forward argmax test_loader top_n s =
    get_incorrect_pred forward argmax
      (mkLoader [b] (dataset_len test_loader) (batch_size test_loader)) top_n s.
Proof.
  intros Hbs Hy Hpred Hpair Htop. unfold paired in Hpair.
  set (k := Z.to_nat top_n).
  set (flags := map negb (eq_rows (argmax y) (target b))).
  assert (Hflags : forall A (zs : list A),
             List.length zs = List.length (data b) ->
             exists p,
               index_with zs
                 (squeeze (slice_to top_n (nonzero (where_ flags 1 0))))
               = Returned p /\ items p = firstn k (kept zs flags)).
  { intros A zs Hzs. apply index_with_squeeze.
    unfold slice_to. destruct (Z.leb_spec 0 top_n) as [_|Hneg]; [|lia].
    apply gather_firstn, gather_nonzero.
    unfold flags. rewrite length_map, eq_rows_length; congruence. }
  destruct (Hflags _ (data b) eq_refl) as (d & Hd & Id).
  destruct (Hflags _ (target b) Hpair) as (t & Ht & It).
  destruct (Hflags _ (argmax y) Hpred) as (p & Hp & Ip).
  assert (Htr : triples (d, t, p) =
                firstn k (misclassified (data b) (target b) (argmax y))).
  { unfold triples, misclassified. rewrite Id, It, Ip.
    rewrite <- !combine_firstn.
    rewrite <- !kept_combine by (rewrite ?length_combine; lia).
    unfold flags. rewrite (wrong_flags (data b)) by assumption.
    rewrite kept_map. reflexivity. }
  exists (d, t, p). split; [|split; [exact Htr|]].
  2:{ rewrite Htr. unfold len. rewrite length_firstn.
      pose proof (misclassified_le (data b) (target b) (argmax y)).
      repeat split; try lia.
      unfold get_incorrect_pred, first_batch. simpl. rewrite Hbs. reflexivity. }
  - unfold get_incorrect_pred, first_batch. rewrite Hbs.
    unfold bind, lift, call_self, ret. rewrite Hy.
    unfold tensor_eq. rewrite Hpred, <- Hpair, Nat.eqb_refl.
    fold flags. rewrite Hd, Ht, Hp. reflexivity.
Qed.

(** * Further properties of the methods *)

(** ** What the calls leave alone *)

(** Whatever its outcome, [model_train] leaves the instance in training mode
    and keeps the test histories, the console and the normalisation
    settings. *)
Lemma model_train_frame (train_loader : Loader Input)
      (criterion : Criterion Output) (optimizer : Optimizer Input Net)
      (scheduler : option (Scheduler Net)) (s s' : Model_Composite Net)
      (o : Outcome unit) :
  model_train forward argmax train_loader criterion optimizer scheduler s
    = (o, s') ->
  training s' = true /\
  test_accuracy s' = test_accuracy s /\
  test_losses s' = test_losses s /\
  console s' = console s /\
  norm_type s' = norm_type s /\
  n_groups s' = n_groups s.
Proof.
  unfold model_train. intros H.
  unfold bind at 1, modify at 1 in H.
  pose proof (train_loop_records criterion optimizer scheduler
                (batches train_loader) (tally0) (set_training true s)) as R.
  unfold bind at 1 in H.
  destruct (train_loop _ _ _ _ _ _ _ _) as [[t|e1] s1]; simpl in R;
    destruct R as (_ & R2 & _ & R4 & R5 & R6 & R7 & R8).
  - unfold bind at 1, lift at 1 in H.
    destruct (percent _ _) as [q|e1];
      inversion H; subst; simpl; repeat split; assumption.
  - inversion H; subst. repeat split; assumption.
Qed.

(** The instance [model_test] leaves is the one it got, in evaluation mode,
    with zero, one or both test entries appended, and the report printed when
    it returns. *)
Lemma model_test_shapes (test_loader : Loader Input)
      (criterion : Criterion Output) (s s' : Model_Composite Net)
      (o : Outcome unit) :
  model_test forward argmax test_loader criterion s = (o, s') ->
  s' = set_training false s \/
  (exists x, s' = append_test_losses x (set_training false s)) \/
  (exists x a,
     s' = append_test_accuracy a (append_test_losses x (set_training false s))) \/
  (exists x a r,
     s' = print r (append_test_accuracy a
                     (append_test_losses x (set_training false s)))).
Proof.
  unfold model_test. intros H.
  unfold bind at 1, modify at 1 in H.
  unfold bind at 1 in H.
  destruct (test_loop _ _ _ _ _ _) as [[t|e] s1] eqn:Hloop.
  2:{ pose proof (test_loop_state criterion (batches test_loader) (tally0)
                                  (set_training false s)) as E.
      rewrite Hloop in E. simpl in E. subst s1.
      inversion H; subst. left. reflexivity. }
  apply test_pass_intro in Hloop. destruct Hloop as [-> _].
  unfold bind at 1, modify at 1 in H.
  unfold bind at 1, lift at 1 in H.
  destruct (read_batch_size test_loader) as [bsz|e];
    [|inversion H; subst; right; left; eexists; reflexivity].
  unfold bind at 1, lift at 1 in H.
  destruct (true_div _ bsz) as [it|e];
    [|inversion H; subst; right; left; eexists; reflexivity].
  unfold bind at 1, lift at 1 in H.
  destruct (float_div _ it) as [avg|e];
    [|inversion H; subst; right; left; eexists; reflexivity].
  unfold bind at 1, lift at 1 in H.
  destruct (percent _ _) as [acc|e];
    [|inversion H; subst; right; left; eexists; reflexivity].
  unfold bind at 1, modify at 1 in H.
  unfold bind at 1, lift at 1 in H.
  unfold bind at 1 in H. unfold bind at 1 in H.
  unfold gets at 1 in H. unfold lift at 1 in H.
  cbn [test_accuracy append_test_accuracy] in H.
  rewrite last_item_app in H.
  unfold bind at 1 in H. unfold bind at 1 in H.
  unfold gets at 1 in H. unfold lift at 1 in H.
  destruct (last_item _) as [a|e]; inversion H; subst.
  - right; right; right. do 3 eexists. reflexivity.
  - right; right; left. do 2 eexists. reflexivity.
Qed.

(** X8: an evaluation never touches the parameters of the network, the
    training histories or the normalisation settings, and always leaves the
    module in evaluation mode, also when it raises. *)
Theorem model_test_keeps_parameters (test_loader : Loader Input)
        (criterion : Criterion Output) (s s' : Model_Composite Net)
        (o : Outcome unit) :
  model_test forward argmax test_loader criterion s = (o, s') ->
  net s' = net s /\
  training s' = false /\
  train_accuracy s' = train_accuracy s /\
  train_losses s' = train_losses s /\
  norm_type s' = norm_type s /\
  n_groups s' = n_groups s.
Proof.
  intros H. apply model_test_shapes in H.
  destruct H as [-> | [(x & ->) | [(x & a & ->) | (x & a & r & ->)]]];
    repeat split.
Qed.


(** X14: no sequence of training and evaluation calls, however it ends, changes
    the layer [get_norm] builds. *)
Theorem get_norm_stable_under_calls (cs : list (Call Input Output Net))
        (s s' : Model_Composite Net) (o : Outcome unit) (n_channels : Z) :
  run_calls forward argmax cs s = (o, s') ->
  get_norm s' n_channels = get_norm s n_channels.
Proof.
  intros H.
  assert (G : norm_type s' = norm_type s /\ n_groups s' = n_groups s).
  { revert s H. induction cs as [|c cs IH]; intros s H; simpl in H.
    - inversion H; subst. split; reflexivity.
    - unfold bind in H.
      destruct (run_call forward argmax c s) as [[[]|e] s1] eqn:Hc.
      + apply IH in H. destruct H as [H1 H2].
        destruct c as [l cr op sch | l cr]; simpl in Hc.
        * apply model_train_frame in Hc.
          destruct Hc as (_ & _ & _ & _ & E1 & E2). split; congruence.
        * apply model_test_shapes in Hc.
          destruct Hc as [-> | [(x & ->) | [(x & a & ->) | (x & a & r & ->)]]];
            split; assumption.
      + inversion H; subst.
        destruct c as [l cr op sch | l cr]; simpl in Hc.
        * apply model_train_frame in Hc.
          destruct Hc as (_ & _ & _ & _ & E1 & E2). split; assumption.
        * apply model_test_shapes in Hc.
          destruct Hc as [-> | [(x & ->) | [(x & a & ->) | (x & a & r & ->)]]];
            split; reflexivity. }
  destruct G as [G1 G2]. unfold get_norm. rewrite G1, G2. reflexivity.
Qed.

(** X15: on an instance that has not been trained, a sequence of calls that
    returns does not begin with an evaluation. *)
Theorem untrained_run_begins_with_training (c : Call Input Output Net)
        (cs : list (Call Input Output Net)) (s s' : Model_Composite Net) :
  train_accuracy s = [] ->
  run_calls forward argmax (c :: cs) s = (Returned tt, s') ->
  is_train c = true.
Proof.
  intros Hempty H. simpl in H.
  apply bind_returned in H. destruct H as ([] & s1 & Hc & _).
  destruct c as [l cr op sch | l cr]; [reflexivity|].
  simpl in Hc. apply model_test_returned in Hc.
  destruct Hc as (t & bsz & a & _ & _ & _ & _ & Hlast & _).
  rewrite Hempty in Hlast. discriminate Hlast.
Qed.

(** ** When the calls return and how they fail *)

Lemma model_train_returned_nonempty (train_loader : Loader Input)
      (criterion : Criterion Output) (optimizer : Optimizer Input Net)
      (scheduler : option (Scheduler Net)) (s s' : Model_Composite Net) :
  model_train forward argmax train_loader criterion optimizer scheduler s
    = (Returned tt, s') ->
  exists b rest, batches train_loader = b :: rest /\ data b <> [].
Proof.
  unfold model_train. intros H.
  apply bind_returned in H. destruct H as ([] & s0 & _ & H).
  apply bind_returned in H. destruct H as (t & s1 & Hloop & H).
  apply bind_returned in H. destruct H as (acc & s2 & Hacc & _).
  apply lift_returned in Hacc. destruct Hacc as [Hacc _].
  destruct (batches train_loader) as [|b rest].
  - simpl in Hloop. inversion Hloop; subst t.
    apply percent_returned in Hacc. destruct Hacc as [Hnz _].
    simpl in Hnz. congruence.
  - exists b, rest. split; [reflexivity|].
    simpl in Hloop.
    apply bind_returned in Hloop. destruct Hloop as (y & s3 & _ & Hloop).
    apply bind_returned in Hloop. destruct Hloop as (l & s4 & _ & Hloop).
    apply bind_returned in Hloop. destruct Hloop as (c & s5 & _ & Hloop).
    apply bind_returned in Hloop. destruct Hloop as ([] & s6 & _ & Hloop).
    apply bind_returned in Hloop. destruct Hloop as ([] & s7 & _ & Hloop).
    apply bind_returned in Hloop. destruct Hloop as (q & s8 & Hq & _).
    apply lift_returned in Hq. destruct Hq as [Hq _].
    apply percent_returned in Hq. destruct Hq as [Hnz _].
    intros Hd. apply Hnz. rewrite Hd. reflexivity.
Qed.

(** X1: with collaborators that do not raise and batches that pair inputs and
    targets, a training call returns exactly when the loader has a first batch
    and that batch has a sample; the later batches may be empty. *)
Theorem model_train_returns_iff (train_loader : Loader Input)
        (criterion : Criterion Output) (optimizer : Optimizer Input Net)
        (scheduler : option (Scheduler Net)) (s : Model_Composite Net) :
  forward_returns forward argmax ->
  criterion_returns criterion ->
  optimizer_returns optimizer ->
  scheduler_returns scheduler ->
  Forall (@paired Input) (batches train_loader) ->
  (exists s',
     model_train forward argmax train_loader criterion optimizer scheduler s
       = (Returned tt, s')) <->
  (exists b rest, batches train_loader = b :: rest /\ data b <> []).
Proof.
  intros Hf Hc Ho Hs Hp. split.
  - intros [s' H]. eapply model_train_returned_nonempty. exact H.
  - intros (b & rest & Hbs & Hne).
    eapply model_train_returns; eassumption.
Qed.

(** X2: a training call on a loader without a batch, or whose first batch is
    empty, raises [ZeroDivisionError] (the second from the progress bar, whatever
    the later batches hold) and appends nothing. *)
Theorem model_train_without_sample_raises (train_loader : Loader Input)
        (criterion : Criterion Output) (optimizer : Optimizer Input Net)
        (scheduler : option (Scheduler Net)) (s : Model_Composite Net) :
  forward_returns forward argmax ->
  criterion_returns criterion ->
  optimizer_returns optimizer ->
  scheduler_returns scheduler ->
  match batches train_loader with
  | [] => True
  | b :: _ => data b = [] /\ target b = []
  end ->
  exists s',
    model_train forward argmax train_loader criterion optimizer scheduler s
      = (Raised ZeroDivisionError, s') /\
    train_accuracy s' = train_accuracy s /\
    train_losses s' = train_losses s.
Proof.
  intros Hf Hc Ho Hs Hfirst.
  assert (G : exists s',
             model_train forward argmax train_loader criterion optimizer
                         scheduler s = (Raised ZeroDivisionError, s')).
  { unfold model_train. unfold bind at 1, modify at 1.
    destruct (batches train_loader) as [|b rest].
    - eexists. reflexivity.
    - destruct Hfirst as [Hd Ht]. simpl.
      destruct (Hf true (net s) (data b)) as (y & Hy & Hrows).
      destruct (Hc y (target b)) as (l & Hl).
      destruct (Ho (net s) (data b) (target b)) as (w' & Hw).
      destruct (step_scheduler_returns Hs (set_net w' (set_training true s)))
        as (s2 & Hs2).
      unfold bind at 1. unfold bind at 1, call_self.
      cbn [training net set_training]. rewrite Hy.
      unfold bind at 1, lift at 1. rewrite Hl.
      unfold bind at 1, lift at 1, count_correct.
      rewrite Hrows, Hd, Ht. cbn [List.length Nat.eqb].
      unfold bind at 1, backprop. cbn [net set_training].
      rewrite Hw.
      unfold bind at 1. rewrite Hs2.
      unfold bind at 1, lift at 1.
      assert (E : agreements (argmax y) [] = 0%Z)
        by (destruct (argmax y); reflexivity).
      rewrite E. cbn.
      eexists. reflexivity. }
  destruct G as [s' G]. exists s'. split; [exact G|].
  apply model_train_raised in G. destruct G as (E1 & E2 & _).
  split; assumption.
Qed.

Lemma test_loop_returns (criterion : Criterion Output) (bs : list (Batch Input)) :
  forward_returns forward argmax ->
  test_loss_returns criterion ->
  Forall (@paired Input) bs ->
  forall t s, exists t',
    test_loop forward argmax criterion bs t s = (Returned t', s).
Proof.
  intros Hf Hc Hp. induction bs as [|b rest IH]; intros t s.
  - exists t. reflexivity.
  - inversion Hp as [|? ? Hb Hrest]; subst. unfold paired in Hb.
    destruct (Hf (training s) (net s) (data b)) as (y & Hy & Hrows).
    destruct (Hc y (target b)) as (l & Hl).
    destruct (IH Hrest
                (mkTally (loss_total t + l)
                         (correct t + agreements (argmax y) (target b))
                         (processed t + len (data b))) s) as (t' & Ht').
    exists t'. simpl.
    unfold bind at 1, call_self. rewrite Hy.
    unfold bind at 1, lift at 1. rewrite Hl.
    unfold bind at 1, lift at 1, count_correct.
    rewrite Hrows, <- Hb, Nat.eqb_refl. exact Ht'.
Qed.

Lemma iterations_nonzero (n : nat) (bsz : Z) :
  n <> 0%nat -> bsz <> 0%Z ->
  Qeq_bool (inject_Z (Z.of_nat n) / inject_Z bsz) 0 = false.
Proof.
  intros Hn Hb. destruct (Qeq_bool _ 0) eqn:Ez; [|reflexivity].
  exfalso. apply Qeq_bool_iff in Ez.
  apply Hn. unfold Qeq, Qdiv, Qmult, Qinv in Ez. simpl in Ez.
  destruct bsz as [|b|b]; simpl in Ez; try contradiction; lia.
Qed.

Lemma last_item_nonempty (A : Type) (l : list A) :
  l <> [] -> exists a, last_item l = Returned a.
Proof.
  induction l as [|x l IH]; intros H; [congruence|].
  destruct l as [|x' l'].
  - exists x. reflexivity.
  - destruct IH as [a Ha]; [discriminate|]. exists a. exact Ha.
Qed.

(** The steps of [model_test] after its pass, when the pass returned [t]. *)
Lemma model_test_after_pass (test_loader : Loader Input)
      (criterion : Criterion Output) (s : Model_Composite Net) (t : Tally) :
  test_loop forward argmax criterion (batches test_loader) (tally0)
            (set_training false s) = (Returned t, set_training false s) ->
  let s1 := append_test_losses (loss_total t) (set_training false s) in
  let n := Z.of_nat (dataset_len test_loader) in
  model_test forward argmax test_loader criterion s =
    match batch_size test_loader with
    | None => (Raised TypeError, s1)
    | Some bsz =>
        if (bsz =? 0)%Z then (Raised ZeroDivisionError, s1)
        else if (n =? 0)%Z then (Raised ZeroDivisionError, s1)
        else
          match last_item (train_accuracy s) with
          | Raised e =>
              (Raised e, append_test_accuracy (ratio100 (correct t) n) s1)
          | Returned a => (Returned tt, tested test_loader t bsz a s)
          end
    end.
Proof.
  intros Hloop s1 n. unfold model_test.
  unfold bind at 1, modify at 1.
  unfold bind at 1. rewrite Hloop.
  unfold bind at 1, modify at 1.
  unfold read_batch_size.
  destruct (batch_size test_loader) as [bsz|]; [|reflexivity].
  unfold bind at 1, lift at 1.
  unfold true_div. destruct (Z.eqb_spec bsz 0) as [E|Hb]; [reflexivity|].
  unfold bind at 1, lift at 1. unfold float_div. subst n.
  destruct (Z.eqb_spec (Z.of_nat (dataset_len test_loader)) 0) as [E|Hn].
  { rewrite E. reflexivity. }
  rewrite iterations_nonzero by (lia || exact Hb).
  unfold bind at 1, lift at 1. unfold percent.
  destruct (Z.eqb_spec (Z.of_nat (dataset_len test_loader)) 0) as [E|_];
    [contradiction|].
  unfold bind, gets, lift, modify.
  cbn [test_accuracy train_accuracy append_test_accuracy append_test_losses
       set_training].
  rewrite last_item_app.
  destruct (last_item (train_accuracy s)) as [a|e]; reflexivity.
Qed.

(** X5: with a network and a loss function that do not raise and batches that
    pair inputs and targets, an evaluation returns exactly when the loader has
    a batch size other than zero, the dataset is not empty and the instance
    has been trained. *)
Theorem model_test_returns_iff (test_loader : Loader Input)
        (criterion : Criterion Output) (s : Model_Composite Net) :
  forward_returns forward argmax ->
  test_loss_returns criterion ->
  Forall (@paired Input) (batches test_loader) ->
  (exists s',
     model_test forward argmax test_loader criterion s = (Returned tt, s')) <->
  ((exists bsz, batch_size test_loader = Some bsz /\ bsz <> 0%Z) /\
   dataset_len test_loader <> 0%nat /\
   train_accuracy s <> []).
Proof.
  intros Hf Hc Hp. split.
  - intros [s' H]. apply model_test_returned in H.
    destruct H as (t & bsz & a & _ & Hb & Hbz & Hn & Hlast & _).
    split; [exists bsz; split; assumption|]. split; [exact Hn|].
    intros E. rewrite E in Hlast. discriminate Hlast.
  - intros ((bsz & Hb & Hbz) & Hn & Htr).
    destruct (test_loop_returns Hf Hc Hp (tally0) (set_training false s))
      as (t & Hloop).
    destruct (last_item_nonempty Htr) as (a & Ha).
    exists (tested test_loader t bsz a s).
    rewrite (model_test_after_pass test_loader criterion Hloop), Hb, Ha.
    destruct (Z.eqb_spec bsz 0) as [E|_]; [contradiction|].
    destruct (Z.eqb_spec (Z.of_nat (dataset_len test_loader)) 0) as [E|_];
      [lia | reflexivity].
Qed.

(** X6: an evaluation whose loader has no batch size, a batch size of zero or
    an empty dataset raises at the normalisation of the loss ([TypeError] in
    the first case, [ZeroDivisionError] in the others), after the loss of the
    pass has been appended and before the accuracy is: the two test histories
    are left with different lengths when they had the same. *)
Theorem model_test_bad_loader_misaligns (test_loader : Loader Input)
        (criterion : Criterion Output) (s : Model_Composite Net) :
  forward_returns forward argmax ->
  test_loss_returns criterion ->
  Forall (@paired Input) (batches test_loader) ->
  batch_size test_loader = None \/
  batch_size test_loader = Some 0%Z \/
  dataset_len test_loader = 0%nat ->
  exists e s' t,
    model_test forward argmax test_loader criterion s = (Raised e, s') /\
    (e = match batch_size test_loader with
         | Some _ => ZeroDivisionError
         | None => TypeError
         end) /\
    test_pass forward argmax criterion test_loader s t /\
    test_losses s' = test_losses s ++ [loss_total t] /\
    test_accuracy s' = test_accuracy s /\
    (List.length (test_losses s) = List.length (test_accuracy s) ->
     List.length (test_losses s') <> List.length (test_accuracy s')).
Proof.
  intros Hf Hc Hp Hbad.
  destruct (test_loop_returns Hf Hc Hp (tally0) (set_training false s))
    as (t & Hloop).
  pose proof (model_test_after_pass test_loader criterion Hloop) as Hrun. cbv zeta in Hrun.
  pose proof Hloop as Hpass. apply test_pass_intro in Hpass.
  destruct Hpass as [_ Hpass].
  exists (match batch_size test_loader with
          | Some _ => ZeroDivisionError
          | None => TypeError
          end).
  exists (append_test_losses (loss_total t) (set_training false s)), t.
  split.
  - rewrite Hrun.
    destruct (batch_size test_loader) as [bsz|] eqn:Eb; [|reflexivity].
    destruct (Z.eqb_spec bsz 0) as [E|Hbz]; [reflexivity|].
    destruct Hbad as [H|[H|H]]; try congruence.
    rewrite H. reflexivity.
  - split; [reflexivity|]. split; [exact Hpass|].
    cbn [test_losses test_accuracy append_test_losses set_training].
    split; [reflexivity|]. split; [reflexivity|].
    intros E. rewrite length_app. simpl. lia.
Qed.

(** X7: evaluating an instance that has not been trained raises [IndexError]
    only after both test histories have received their entry; nothing is
    printed. *)
Theorem model_test_untrained_still_records (test_loader : Loader Input)
        (criterion : Criterion Output) (s : Model_Composite Net) (bsz : Z) :
  forward_returns forward argmax ->
  test_loss_returns criterion ->
  Forall (@paired Input) (batches test_loader) ->
  batch_size test_loader = Some bsz ->
  bsz <> 0%Z ->
  dataset_len test_loader <> 0%nat ->
  train_accuracy s = [] ->
  exists s' t,
    model_test forward argmax test_loader criterion s = (Raised IndexError, s') /\
    test_pass forward argmax criterion test_loader s t /\
    test_losses s' = test_losses s ++ [loss_total t] /\
    test_accuracy s' =
      test_accuracy s ++
        [ratio100 (correct t) (Z.of_nat (dataset_len test_loader))] /\
    console s' = console s.
Proof.
  intros Hf Hc Hp Hb Hbz Hn Hempty.
  destruct (test_loop_returns Hf Hc Hp (tally0) (set_training false s))
    as (t & Hloop).
  pose proof (model_test_after_pass test_loader criterion Hloop) as Hrun. cbv zeta in Hrun.
  pose proof Hloop as Hpass. apply test_pass_intro in Hpass.
  destruct Hpass as [_ Hpass].
  rewrite Hb, Hempty in Hrun.
  destruct (Z.eqb_spec bsz 0) as [E|_]; [contradiction|].
  destruct (Z.eqb_spec (Z.of_nat (dataset_len test_loader)) 0) as [E|_];
    [lia|].
  simpl last_item in Hrun.
  eexists. exists t. split; [exact Hrun|].
  split; [exact Hpass|]. repeat split.
Qed.

(** ** More on [get_incorrect_pred] *)

Lemma gather_length (A : Type) (xs : list A) :
  forall rows l, gather xs rows = Returned l -> List.length l = List.length rows.
Proof.
  induction rows as [|i rows IH]; intros l H; simpl in H.
  - inversion H. reflexivity.
  - destruct (nth_error xs i); [|discriminate H].
    destruct (gather xs rows) as [l'|e]; [|discriminate H].
    inversion H. simpl. rewrite (IH l' eq_refl). reflexivity.
Qed.

Lemma index_with_picked (A : Type) (xs : list A) (rows : list nat) (l : list A) :
  gather xs rows = Returned l ->
  index_with xs (squeeze rows) = Returned (picked l).
Proof.
  intros H. pose proof (gather_length _ _ H) as Hlen.
  destruct rows as [|i [|j rows]].
  - simpl in H. inversion H. reflexivity.
  - simpl in H. simpl. destruct (nth_error xs i) as [a|]; [|discriminate H].
    inversion H. reflexivity.
  - unfold squeeze, index_with. rewrite H.
    destruct l as [|a [|a' l]]; try discriminate Hlen. reflexivity.
Qed.

Lemma items_picked (A : Type) (l : list A) : items (picked l) = l.
Proof.
  destruct l as [|a [|a' l]]; reflexivity.
Qed.

Lemma slice_to_same_length (A B : Type) (n : Z) (l1 : list A) (l2 : list B) :
  List.length l1 = List.length l2 ->
  exists k, slice_to n l1 = firstn k l1 /\ slice_to n l2 = firstn k l2.
Proof.
  intros H. unfold slice_to, len. rewrite H.
  destruct (0 <=? n)%Z; eexists; split; reflexivity.
Qed.

Lemma slice_to_combine (A B : Type) (n : Z) (l1 : list A) (l2 : list B) :
  List.length l1 = List.length l2 ->
  slice_to n (combine l1 l2) = combine (slice_to n l1) (slice_to n l2).
Proof.
  intros H. unfold slice_to, len.
  rewrite length_combine, <- H, Nat.min_id.
  destruct (0 <=? n)%Z; apply combine_firstn.
Qed.

Lemma slice_to_length (A : Type) (n : Z) (l : list A) :
  (List.length (slice_to n l) <= List.length l)%nat.
Proof.
  unfold slice_to. destruct (0 <=? n)%Z; rewrite length_firstn; lia.
Qed.

Section FirstBatch.

Variable test_loader : Loader Input.
Variable b : Batch Input.
Variable rest : list (Batch Input).
Variable top_n : Z.
Variable s : Model_Composite Net.
Variable y : Output.

Hypothesis first : batches test_loader = b :: rest.
Hypothesis predicted : forward (training s) (net s) (data b) = Returned y.
Hypothesis rows : List.length (argmax y) = List.length (data b).
Hypothesis pairs : paired b.

Lemma select_wrong (A : Type) (zs : list A) :
  List.length zs = List.length (data b) ->
  let flags := map negb (eq_rows (argmax y) (target b)) in
  index_with zs (squeeze (slice_to top_n (nonzero (where_ flags 1 0))))
  = Returned (picked (slice_to top_n (kept zs flags))).
Proof.
  intros Hzs flags.
  assert (Hg : gather zs (nonzero (where_ flags 1 0)) = Returned (kept zs flags)).
  { apply gather_nonzero. unfold flags.
    unfold paired in pairs.
    rewrite length_map, eq_rows_length; congruence. }
  pose proof (gather_length _ _ Hg) as Hlen.
  destruct (slice_to_same_length top_n _ _ Hlen) as (k & E1 & E2).
  rewrite E1, E2. apply index_with_picked, gather_firstn. exact Hg.
Qed.

Lemma kept_wrong :
  let flags := map negb (eq_rows (argmax y) (target b)) in
  combine (combine (kept (data b) flags) (kept (target b) flags))
          (kept (argmax y) flags)
  = misclassified (data b) (target b) (argmax y).
Proof.
  intros flags. unfold paired in pairs. unfold misclassified.
  rewrite <- !kept_combine by (rewrite ?length_combine; lia).
  unfold flags. rewrite (wrong_flags (data b)) by assumption.
  apply kept_map.
Qed.

Lemma kept_wrong_lengths :
  let flags := map negb (eq_rows (argmax y) (target b)) in
  List.length (kept (target b) flags) = List.length (kept (data b) flags) /\
  List.length (kept (argmax y) flags) = List.length (kept (data b) flags).
Proof.
  intros flags. unfold paired in pairs.
  assert (Hg : forall A (zs : list A),
             List.length zs = List.length (data b) ->
             List.length (kept zs flags)
             = List.length (nonzero (where_ flags 1 0))).
  { intros A zs Hzs. apply (gather_length zs).
    apply gather_nonzero. unfold flags.
    rewrite length_map, eq_rows_length; congruence. }
  rewrite (Hg _ (target b) pairs), (Hg _ (argmax y) rows),
          (Hg _ (data b) eq_refl).
  split; reflexivity.
Qed.

Lemma get_incorrect_pred_run :
  let flags := map negb (eq_rows (argmax y) (target b)) in
  get_incorrect_pred forward argmax test_loader top_n s =
  (Returned (picked (slice_to top_n (kept (data b) flags)),
             picked (slice_to top_n (kept (target b) flags)),
             picked (slice_to top_n (kept (argmax y) flags))), s).
Proof.
  intros flags. subst flags. unfold paired in pairs.
  unfold get_incorrect_pred, first_batch. rewrite first.
  unfold bind, lift, call_self, ret. rewrite predicted.
  unfold tensor_eq. rewrite rows, <- pairs, Nat.eqb_refl.
  rewrite (select_wrong (data b) eq_refl).
  rewrite (select_wrong (target b) pairs).
  rewrite (select_wrong (argmax y) rows).
  reflexivity.
Qed.

End FirstBatch.

(** X17: for every [top_n], negative ones included, the triples returned are
    the Python slice [[:top_n]] of the misclassified samples of the first
    batch: the first [top_n] of them when [top_n >= 0], all but the last
    [-top_n] when [top_n < 0]. *)
Theorem get_incorrect_pred_slices_misclassified (test_loader : Loader Input)
        (b : Batch Input) (rest : list (Batch Input)) (top_n : Z)
        (s : Model_Composite Net) (y : Output) :
  batches test_loader = b :: rest ->
  forward (training s) (net s) (data b) = Returned y ->
  List.length (argmax y) = List.length (data b) ->
  paired b ->
  exists r,
    get_incorrect_pred forward argmax test_loader top_n s = (Returned r, s) /\
    triples r = slice_to top_n (misclassified (data b) (target b) (argmax y)) /\
    ((top_n < 0)%Z ->
     len (triples r) =
       Z.max 0 (len (misclassified (data b) (target b) (argmax y)) + top_n)).
Proof.
  intros Hbs Hy Hrows Hpair.
  pose proof (get_incorrect_pred_run test_loader top_n s Hbs Hy Hrows Hpair) as Hrun.
  pose proof (kept_wrong y Hrows Hpair) as Hk.
  pose proof (kept_wrong_lengths y Hrows Hpair) as [L1 L2].
  cbv zeta in Hrun, Hk, L1, L2.
  eexists. split; [exact Hrun|].
  assert (E : triples
                (picked (slice_to top_n (kept (data b)
                           (map negb (eq_rows (argmax y) (target b))))),
                 picked (slice_to top_n (kept (target b)
                           (map negb (eq_rows (argmax y) (target b))))),
                 picked (slice_to top_n (kept (argmax y)
                           (map negb (eq_rows (argmax y) (target b))))))
              = slice_to top_n (misclassified (data b) (target b) (argmax y))).
  { unfold triples. rewrite !items_picked, <- Hk.
    rewrite <- !slice_to_combine; [reflexivity | | ].
    - rewrite length_combine. lia.
    - lia. }
  split; [exact E|].
  intros Hneg. rewrite E. unfold slice_to, len.
  destruct (Z.leb_spec 0 top_n) as [H|_]; [lia|].
  rewrite length_firstn. lia.
Qed.

(** X18: when exactly one sample is selected the three results are the sample,
    its target and its prediction themselves, without the batch dimension
    ([squeeze] has turned the index into a scalar); in every other case they
    are three tensors of the same length. *)
Theorem get_incorrect_pred_single_is_unbatched (test_loader : Loader Input)
        (b : Batch Input) (rest : list (Batch Input)) (top_n : Z)
        (s : Model_Composite Net) (y : Output) :
  batches test_loader = b :: rest ->
  forward (training s) (net s) (data b) = Returned y ->
  List.length (argmax y) = List.length (data b) ->
  paired b ->
  exists r,
    get_incorrect_pred forward argmax test_loader top_n s = (Returned r, s) /\
    (forall x t p, triples r = [(x, t, p)] -> r = (Single x, Single t, Single p)) /\
    (List.length (triples r) <> 1%nat ->
     exists xs ts ps,
       r = (Several xs, Several ts, Several ps) /\
       List.length ts = List.length xs /\ List.length ps = List.length xs).
Proof.
  intros Hbs Hy Hrows Hpair.
  pose proof (get_incorrect_pred_run test_loader top_n s Hbs Hy Hrows Hpair) as Hrun.
  pose proof (kept_wrong_lengths y Hrows Hpair) as [L1 L2].
  cbv zeta in Hrun, L1, L2.
  set (flags := map negb (eq_rows (argmax y) (target b))) in *.
  destruct (slice_to_same_length top_n _ _ L1) as (k1 & T1 & D1).
  destruct (slice_to_same_length top_n _ _ L2) as (k2 & P2 & D2).
  set (ds := slice_to top_n (kept (data b) flags)) in *.
  set (ts := slice_to top_n (kept (target b) flags)) in *.
  set (ps := slice_to top_n (kept (argmax y) flags)) in *.
  assert (Lt : List.length ts = List.length ds).
  { rewrite T1, D1, !length_firstn. lia. }
  assert (Lp : List.length ps = List.length ds).
  { assert (E : firstn k1 (kept (data b) flags) = firstn k2 (kept (data b) flags))
      by congruence.
    rewrite P2, D1, !length_firstn.
    apply (f_equal (@List.length Input)) in E. rewrite !length_firstn in E.
    lia. }
  exists (picked ds, picked ts, picked ps). split; [exact Hrun|].
  unfold triples. rewrite !items_picked.
  destruct ds as [|d [|d' ds']]; destruct ts as [|t [|t' ts']];
    try discriminate Lt; destruct ps as [|p [|p' ps']];
    try discriminate Lp; simpl.
  - split; [intros ? ? ? H; discriminate H|].
    intros _. exists [], [], []. repeat split.
  - split; [intros ? ? ? H; inversion H; reflexivity|].
    intros H. congruence.
  - split; [intros ? ? ? H; discriminate H|].
    intros _. do 3 eexists. split; [reflexivity|]. split; assumption.
Qed.


(** ** The report of an evaluation *)





(** X10: when the dataset is made of full batches (its size is the number of
    batches times the batch size), the loss an evaluation prints is the total
    loss of the pass divided by the number of batches. *)
Theorem model_test_average_over_batches (test_loader : Loader Input)
        (criterion : Criterion Output) (s s' : Model_Composite Net) :
  model_test forward argmax test_loader criterion s = (Returned tt, s') ->
  exists (t : Tally) (bsz : Z) (r : Report),
    test_pass forward argmax criterion test_loader s t /\
    batch_size test_loader = Some bsz /\
    console s' = console s ++ [r] /\
    (Z.of_nat (dataset_len test_loader) = (len (batches test_loader) * bsz)%Z ->
     average_loss r == loss_total t / inject_Z (len (batches test_loader))).
Proof.
  intros H. apply model_test_returned in H.
  destruct H as (t & bsz & a & Hpass & Hb & Hbz & Hn & _ & ->).
  exists t, bsz. eexists. split; [exact Hpass|]. split; [exact Hb|].
  unfold tested. cbn [console print average_loss].
  split; [reflexivity|].
  intros Hfull. rewrite Hfull, inject_Z_mult.
  assert (Hk : ~ inject_Z (len (batches test_loader)) == 0).
  { replace 0 with (inject_Z 0) by reflexivity. rewrite inject_Z_injective.
    intros E. rewrite E in Hfull. lia. }
  assert (Hq : ~ inject_Z bsz == 0).
  { replace 0 with (inject_Z 0) by reflexivity. rewrite inject_Z_injective.
    exact Hbz. }
  cbn [average_loss]. field. split; assumption.
Qed.

(** ** Losses that are not negative *)

Lemma Qsum_train_nonneg (criterion : Criterion Output) (mode : bool)
      (bs : list (Batch Input)) (steps : list (Q * Z)) :
  (forall y tgt v, criterion false y tgt = Returned v -> 0 <= v) ->
  Forall2 (train_step forward argmax criterion mode) bs steps ->
  0 <= Qsum (map fst steps).
Proof.
  intros Hpos HF.
  induction HF as [|b [l c] bs steps Hstep HF IH]; simpl.
  - lra.
  - destruct Hstep as (w & y & _ & Hl & _). simpl in Hl.
    apply Hpos in Hl. lra.
Qed.

Lemma Qsum_test_nonneg (criterion : Criterion Output) (mode : bool) (w : Net)
      (bs : list (Batch Input)) (steps : list (Q * Z)) :
  (forall y tgt v, test_batch_loss criterion y tgt = Returned v -> 0 <= v) ->
  Forall2 (test_step forward argmax criterion mode w) bs steps ->
  0 <= Qsum (map fst steps).
Proof.
  intros Hpos HF.
  induction HF as [|b [l c] bs steps Hstep HF IH]; simpl.
  - lra.
  - destruct Hstep as (y & _ & Hl & _). simpl in Hl.
    apply Hpos in Hl. lra.
Qed.

(** X13: with loss functions that give no negative value, loss histories
    without a negative entry stay so along any sequence of calls that
    return. *)
Theorem losses_stay_nonnegative (cs : list (Call Input Output Net))
        (s s' : Model_Composite Net) :
  Forall (@nonnegative_loss Input Output Net) cs ->
  Forall (Qle 0) (train_losses s) ->
  Forall (Qle 0) (test_losses s) ->
  run_calls forward argmax cs s = (Returned tt, s') ->
  Forall (Qle 0) (train_losses s') /\ Forall (Qle 0) (test_losses s').
Proof.
  intros Hcs. revert s.
  induction Hcs as [|c cs Hc Hcs IH]; intros s Htr Hte H; simpl in H.
  - inversion H; subst. split; assumption.
  - apply bind_returned in H. destruct H as ([] & s1 & Hcall & H).
    destruct c as [l cr op sch | l cr]; simpl in Hc, Hcall.
    + apply model_train_returned in Hcall.
      destruct Hcall as (t & (steps & HF & HL & _) & _ & _ & E2 & _ & E4 & _).
      apply (IH s1); [| |exact H].
      * rewrite E2. apply Forall_app. split; [exact Htr|].
        constructor; [|constructor].
        rewrite HL. eapply Qsum_train_nonneg; eassumption.
      * rewrite E4. exact Hte.
    + apply model_test_returned in Hcall.
      destruct Hcall as (t & bsz & a & (steps & HF & HL & _) & _ & _ & _ & _ & ->).
      apply (IH (tested l t bsz a s)); [| |exact H].
      * exact Htr.
      * unfold tested. cbn [test_losses print append_test_accuracy
                             append_test_losses set_training].
        apply Forall_app. split; [exact Hte|].
        constructor; [|constructor].
        rewrite HL. eapply Qsum_test_nonneg; eassumption.
Qed.

(** ** The charts *)

Lemma range1_length (n : nat) : List.length (range1 n) = n.
Proof.
  unfold range1. rewrite length_map, length_seq. reflexivity.
Qed.

Lemma run_calls_lengths (cs : list (Call Input Output Net)) :
  forall s s',
    run_calls forward argmax cs s = (Returned tt, s') ->
    (List.length (train_accuracy s') =
       List.length (train_accuracy s) + count_train cs)%nat /\
    (List.length (train_losses s') =
       List.length (train_losses s) + count_train cs)%nat /\
    (List.length (test_accuracy s') =
       List.length (test_accuracy s) + count_test cs)%nat /\
    (List.length (test_losses s') =
       List.length (test_losses s) + count_test cs)%nat.
Proof.
  unfold count_train, count_test.
  induction cs as [|c cs IH]; intros s s' H; simpl in H.
  - inversion H; subst. simpl. lia.
  - apply bind_returned in H. destruct H as ([] & s1 & Hc & H).
    apply IH in H. destruct H as (H1 & H2 & H3 & H4).
    destruct c as [l cr op sch | l cr]; simpl in Hc |- *.
    + apply model_train_returned in Hc.
      destruct Hc as (t & _ & _ & E1 & E2 & E3 & E4 & _).
      rewrite H1, H2, H3, H4, E1, E2, E3, E4, !length_app. simpl. lia.
    + apply model_test_returned in Hc.
      destruct Hc as (t & bsz & a & _ & _ & _ & _ & _ & E). subst s1.
      rewrite H1, H2, H3, H4. unfold tested. simpl.
      rewrite !length_app. simpl. lia.
Qed.

(** X16: after a sequence of calls that returned, started with four histories
    of one length, both charts take the epochs 1, 2, ... up to the number of
    trainings as abscissas, and every line of [plot_accuracy] and of
    [plot_loss] has as many points as abscissas exactly when as many
    evaluations as trainings have run. *)
Theorem charts_drawable_iff_balanced (cs : list (Call Input Output Net))
        (s s' : Model_Composite Net) :
  run_calls forward argmax cs s = (Returned tt, s') ->
  List.length (train_losses s) = List.length (train_accuracy s) ->
  List.length (test_accuracy s) = List.length (train_accuracy s) ->
  List.length (test_losses s) = List.length (train_accuracy s) ->
  (Forall drawable (plot_accuracy s') <-> count_test cs = count_train cs) /\
  (Forall drawable (plot_loss s') <-> count_test cs = count_train cs) /\
  Forall (fun p => plot_x p =
                   range1 (List.length (train_accuracy s) + count_train cs))
         (plot_accuracy s' ++ plot_loss s').
Proof.
  intros H L1 L2 L3. apply run_calls_lengths in H.
  destruct H as (H1 & H2 & H3 & H4).
  unfold plot_accuracy, plot_loss, drawable. repeat split.
  - intros HF. inversion HF as [|? ? _ HF']; subst.
    inversion HF' as [|? ? Hd _]; subst.
    cbn [plot_x plot_y] in Hd. rewrite range1_length in Hd. lia.
  - intros E. repeat constructor; cbn [plot_x plot_y];
      rewrite range1_length; lia.
  - intros HF. inversion HF as [|? ? _ HF']; subst.
    inversion HF' as [|? ? Hd _]; subst.
    cbn [plot_x plot_y] in Hd. rewrite range1_length in Hd. lia.
  - intros E. repeat constructor; cbn [plot_x plot_y];
      rewrite range1_length; lia.
  - simpl. rewrite H1. repeat constructor.
Qed.

(** ** Further edge cases *)

Lemma ratio100_antitone (c p n : Z) :
  (0 <= c)%Z -> (0 < p <= n)%Z -> ratio100 c n <= ratio100 c p.
Proof.
  intros Hc Hp. unfold ratio100.
  assert (Hp0 : 0 < inject_Z p).
  { replace 0 with (inject_Z 0) by reflexivity. rewrite <- Zlt_Qlt. lia. }
  assert (Hn0 : 0 < inject_Z n).
  { replace 0 with (inject_Z 0) by reflexivity. rewrite <- Zlt_Qlt. lia. }
  apply Qle_shift_div_l; [exact Hp0|].
  assert (E : inject_Z (100 * c) / inject_Z n * inject_Z p
              == inject_Z (100 * c) * inject_Z p / inject_Z n).
  { field. intros H. rewrite H in Hn0. apply (Qlt_irrefl 0). exact Hn0. }
  rewrite E. apply Qle_shift_div_r; [exact Hn0|].
  rewrite <- !inject_Z_mult, <- Zle_Qle. nia.
Qed.

(** X11: the accuracy of an evaluation is counted over the size of the whole
    dataset: when the loader yields fewer samples than the dataset has, the
    entry appended is at most the share of correct predictions among the
    samples seen, and it is that share when the loader yields them all. *)
Theorem model_test_accuracy_over_dataset (test_loader : Loader Input)
        (criterion : Criterion Output) (s s' : Model_Composite Net) :
  model_test forward argmax test_loader criterion s = (Returned tt, s') ->
  Forall (@paired Input) (batches test_loader) ->
  (0 < samples (batches test_loader)
     <= Z.of_nat (dataset_len test_loader))%Z ->
  exists t : Tally,
    test_pass forward argmax criterion test_loader s t /\
    test_accuracy s' =
      test_accuracy s ++
        [ratio100 (correct t) (Z.of_nat (dataset_len test_loader))] /\
    ratio100 (correct t) (Z.of_nat (dataset_len test_loader))
      <= ratio100 (correct t) (processed t) /\
    (samples (batches test_loader) = Z.of_nat (dataset_len test_loader) ->
     ratio100 (correct t) (Z.of_nat (dataset_len test_loader))
     = ratio100 (correct t) (processed t)).
Proof.
  intros H Hp Hcover. apply model_test_returned in H.
  destruct H as (t & bsz & a & Hpass & _ & _ & _ & _ & ->).
  exists t. split; [exact Hpass|].
  destruct Hpass as (steps & HF & _ & HC & HP).
  pose proof (test_pass_correct_le Hp HF) as B.
  split; [reflexivity|]. split.
  - apply ratio100_antitone; rewrite ?HC, ?HP; lia.
  - intros E. rewrite HP, E. reflexivity.
Qed.


Lemma model_test_ext (test_loader : Loader Input)
      (cr cr' : Criterion Output) (s : Model_Composite Net) :
  (forall t s0,
     test_loop forward argmax cr (batches test_loader) t s0 =
     test_loop forward argmax cr' (batches test_loader) t s0) ->
  model_test forward argmax test_loader cr s =
  model_test forward argmax test_loader cr' s.
Proof.
  intros H. unfold model_test, bind, modify. rewrite H. reflexivity.
Qed.

(** X12: with a loss function that rejects [reduction='sum'] on every batch, an
    evaluation does exactly what it does with that function called plainly
    for both signatures. *)
Theorem model_test_plain_loss (test_loader : Loader Input)
        (criterion : Criterion Output) (s : Model_Composite Net) :
  (forall y tgt, returns (criterion true y tgt) = false) ->
  model_test forward argmax test_loader criterion s =
  model_test forward argmax test_loader (fun _ => criterion false) s.
Proof.
  intros Hrej. apply model_test_ext.
  intros t s0. apply test_loop_plain_loss. exact Hrej.
Qed.

End HarnessFacts.

(** * The properties on the concrete harness *)

(** One epoch of training and one evaluation on the concrete harness: every
    history has one entry. *)
Lemma history_lengths_after_calls_witness :
  let s' := snd (run_calls Scenario.forward Scenario.argmax Scenario.epoch
                           Scenario.fresh) in
  run_calls Scenario.forward Scenario.argmax Scenario.epoch Scenario.fresh
    = (Returned tt, s') /\
  List.length (train_accuracy s') = 1%nat /\
  List.length (train_losses s') = 1%nat /\
  List.length (test_accuracy s') = 1%nat /\
  List.length (test_losses s') = 1%nat.
Proof.
  intros s'.
  assert (H : run_calls Scenario.forward Scenario.argmax Scenario.epoch
                        Scenario.fresh = (Returned tt, s')) by reflexivity.
  split; [exact H|].
  destruct (@history_lengths_after_calls _ _ _ _ _ _ _ _ H) as (H1 & H2 & H3 & H4 & _).
  repeat split; assumption.
Defined.

(** The evaluation of the trained concrete harness appends a percentage. *)
Lemma accuracy_within_bounds_witness :
  let c := Test Scenario.hundred Scenario.unit_loss : Call Z (list Z) nat in
  sound_source c /\
  appended_percentage
    (train_accuracy Scenario.trained)
    (train_accuracy (snd (run_call Scenario.forward Scenario.argmax c
                                   Scenario.trained))) /\
  appended_percentage
    (test_accuracy Scenario.trained)
    (test_accuracy (snd (run_call Scenario.forward Scenario.argmax c
                                  Scenario.trained))).
Proof.
  intros c.
  assert (Hsrc : sound_source c).
  { split; [repeat constructor | vm_compute; discriminate]. }
  split; [exact Hsrc|].
  exact (@accuracy_within_bounds _ _ _ Scenario.forward Scenario.argmax c
                                 Scenario.trained _ _ Hsrc eq_refl).
Defined.

(** Evaluating the fresh concrete harness raises [IndexError]. *)
Lemma model_test_before_training_raises_witness :
  train_accuracy Scenario.fresh = [] /\
  fst (model_test Scenario.forward Scenario.argmax Scenario.hundred
                  Scenario.unit_loss Scenario.fresh) = Raised IndexError.
Proof.
  split; [reflexivity|].
  eapply (proj2 (model_test_before_training_raises
                   Scenario.forward Scenario.argmax Scenario.hundred
                   Scenario.unit_loss Scenario.fresh eq_refl)).
  - reflexivity.
  - reflexivity.
  - discriminate.
  - discriminate.
Defined.

(** C4, as the claim has it, fails: on the dataset of 100 samples in 5 batches
    of 20 with unit batch losses, the entry [model_test] appends to
    [test_losses] is 5, and is not the normalised loss 1 of the report. *)
Lemma test_history_keeps_raw_loss :
  exists (s' : Model_Composite nat) (raw : Q) (r : Report),
    model_test Scenario.forward Scenario.argmax Scenario.hundred
               Scenario.unit_loss Scenario.trained = (Returned tt, s') /\
    test_losses s' = [raw] /\
    console s' = [r] /\
    raw == 5 /\
    average_loss r == 1 /\
    ~ raw == average_loss r.
Proof.
  eexists. eexists. eexists.
  split; [vm_compute; reflexivity|].
  split; [reflexivity|]. split; [reflexivity|].
  split; [reflexivity|]. split; [reflexivity|].
  intros H. vm_compute in H. discriminate H.
Defined.

(** On the dataset of 100 samples the history gets 5 and the report shows 1. *)
Lemma model_test_loss_bookkeeping_witness :
  let s' := snd (model_test Scenario.forward Scenario.argmax Scenario.hundred
                            Scenario.unit_loss Scenario.trained) in
  model_test Scenario.forward Scenario.argmax Scenario.hundred
             Scenario.unit_loss Scenario.trained = (Returned tt, s') /\
  exists (raw : Q) (r : Report),
    test_losses s' = [raw] /\ console s' = [r] /\
    raw == 5 /\ average_loss r == 1.
Proof.
  intros s'.
  assert (H : model_test Scenario.forward Scenario.argmax Scenario.hundred
                Scenario.unit_loss Scenario.trained = (Returned tt, s'))
    by reflexivity.
  split; [exact H|].
  destruct (@model_test_loss_bookkeeping _ _ _ _ _ _ _ _ _ H)
    as (t & bsz & r & _ & Hb & Hl & Hc & _ & Hsc).
  exists (loss_total t), r.
  split; [exact Hl|]. split; [exact Hc|].
  apply Hsc.
  - reflexivity.
  - reflexivity.
  - inversion Hb. reflexivity.
  - intros y tgt v E. inversion E. reflexivity.
Defined.



(** The tag ['instance'] is not known: no layer. *)
Lemma get_norm_unknown_tag_witness :
  norm_type Scenario.untagged <> "bn"%string /\
  norm_type Scenario.untagged <> "ln"%string /\
  norm_type Scenario.untagged <> "gn"%string /\
  get_norm Scenario.untagged 16 = None.
Proof.
  assert (H1 : norm_type Scenario.untagged <> "bn"%string) by discriminate.
  assert (H2 : norm_type Scenario.untagged <> "ln"%string) by discriminate.
  assert (H3 : norm_type Scenario.untagged <> "gn"%string) by discriminate.
  split; [exact H1|]. split; [exact H2|]. split; [exact H3|].
  exact (get_norm_unknown_tag Scenario.untagged 16 H1 H2 H3).
Defined.

(** C8, as the claim has it, fails for a negative [top_n]: with [top_n = -1]
    and three misclassified samples in the batch the slice drops the last one
    and two triples are returned, more than [top_n]. *)
Lemma get_incorrect_pred_negative_top_n :
  exists r,
    get_incorrect_pred Scenario.forward Scenario.argmax Scenario.mixed (-1)
                       Scenario.fresh = (Returned r, Scenario.fresh) /\
    triples r = [(2, 0, 2); (4, 0, 4)]%Z /\
    ~ (len (triples r) <= -1)%Z.
Proof.
  eexists. split; [vm_compute; reflexivity|].
  split; [reflexivity|].
  vm_compute. intros H. apply H. reflexivity.
Defined.

(** The first two of the three misclassified samples of the mixed batch. *)
Lemma get_incorrect_pred_first_misclassified_witness :
  (0 <= 2)%Z /\
  exists r,
    get_incorrect_pred Scenario.forward Scenario.argmax Scenario.mixed 2
                       Scenario.fresh = (Returned r, Scenario.fresh) /\
    triples r = [(2, 0, 2); (4, 0, 4)]%Z.
Proof.
  assert (H : (0 <= 2)%Z) by lia.
  split; [exact H|].
  destruct (@get_incorrect_pred_first_misclassified
              Z (list Z) nat Scenario.forward Scenario.argmax Scenario.mixed
              (mkBatch [1; 2; 3; 4; 5] [1; 0; 3; 0; 0])%Z
              [mkBatch [6] [6]]%Z 2%Z Scenario.fresh [1; 2; 3; 4; 5]%Z
              eq_refl eq_refl eq_refl eq_refl H)
    as (r & Hr & Ht & _).
  exists r. split; [exact Hr | exact Ht].
Defined.

(** A loss function without [reduction]: the value of the plain call is the
    one added. *)
Lemma test_loss_fallback_witness :
  let b := mkBatch [1; 2]%Z [1; 2]%Z in
  Scenario.plain_loss true [1; 2]%Z [1; 2]%Z = Raised TypeError /\
  Scenario.plain_loss false [1; 2]%Z [1; 2]%Z = Returned (1 # 2) /\
  test_loop Scenario.forward Scenario.argmax Scenario.plain_loss [b]
            (tally0) Scenario.fresh
  = (Returned (mkTally (0 + (1 # 2)) (0 + 2) (0 + 2)), Scenario.fresh).
Proof.
  intros b.
  split; [reflexivity|]. split; [reflexivity|].
  apply (proj1 (proj2 (@test_loss_fallback
                         Z (list Z) nat Scenario.forward Scenario.argmax
                         Scenario.plain_loss b [] (tally0) Scenario.fresh
                         [1; 2]%Z 2%Z eq_refl eq_refl)) TypeError (1 # 2));
    reflexivity.
Defined.

(** * The further properties on the concrete harness *)

Lemma scenario_forward_returns :
  forward_returns Scenario.forward Scenario.argmax (Net := nat).
Proof.
  intros mode w xs. exists xs. split; reflexivity.
Defined.

Lemma scenario_unit_loss_returns : criterion_returns Scenario.unit_loss.
Proof.
  intros y tgt. exists 1. reflexivity.
Defined.

Lemma scenario_unit_test_loss_returns : test_loss_returns Scenario.unit_loss.
Proof.
  intros y tgt. exists 1. reflexivity.
Defined.

Lemma scenario_sgd_returns : optimizer_returns Scenario.sgd.
Proof.
  intros w xs tgt. exists (S w). reflexivity.
Defined.

Lemma scenario_no_scheduler_returns :
  scheduler_returns (None : option (Scheduler nat)).
Proof.
  intros f H. discriminate H.
Defined.

(** The evaluation of the trained harness leaves the step count of the
    optimiser at 2. *)
Lemma model_test_keeps_parameters_witness :
  let s' := snd (model_test Scenario.forward Scenario.argmax Scenario.hundred
                            Scenario.unit_loss Scenario.trained) in
  model_test Scenario.forward Scenario.argmax Scenario.hundred
             Scenario.unit_loss Scenario.trained = (Returned tt, s') /\
  net s' = 2%nat /\ training s' = false.
Proof.
  intros s'.
  assert (H : model_test Scenario.forward Scenario.argmax Scenario.hundred
                Scenario.unit_loss Scenario.trained = (Returned tt, s'))
    by reflexivity.
  split; [exact H|].
  pose proof H as G. apply model_test_keeps_parameters in G.
  destruct G as (G1 & G2 & _). split; [exact G1 | exact G2].
Defined.


(** After an epoch the group normalisation is still the one configured. *)
Lemma get_norm_stable_under_calls_witness :
  let s' := snd (run_calls Scenario.forward Scenario.argmax Scenario.epoch
                           Scenario.grouped) in
  run_calls Scenario.forward Scenario.argmax Scenario.epoch Scenario.grouped
    = (Returned tt, s') /\
  get_norm s' 8 = Some (GroupNorm 4 8).
Proof.
  intros s'.
  assert (H : run_calls Scenario.forward Scenario.argmax Scenario.epoch
                        Scenario.grouped = (Returned tt, s')) by reflexivity.
  split; [exact H|].
  erewrite get_norm_stable_under_calls by exact H. reflexivity.
Defined.

(** The epoch begins with a training. *)
Lemma untrained_run_begins_with_training_witness :
  train_accuracy Scenario.fresh = [] /\
  run_calls Scenario.forward Scenario.argmax Scenario.epoch Scenario.fresh
    = (Returned tt, Scenario.evaluated) /\
  is_train (Train Scenario.two_batches Scenario.unit_loss Scenario.sgd None
              : Call Z (list Z) nat) = true.
Proof.
  assert (H : run_calls Scenario.forward Scenario.argmax Scenario.epoch
                        Scenario.fresh = (Returned tt, Scenario.evaluated))
    by reflexivity.
  split; [reflexivity|]. split; [exact H|].
  eapply untrained_run_begins_with_training; [|exact H]. reflexivity.
Defined.

(** Training on the two batches returns. *)
Lemma model_train_returns_iff_witness :
  Forall (@paired Z) (batches Scenario.two_batches) /\
  exists s',
    model_train Scenario.forward Scenario.argmax Scenario.two_batches
                Scenario.unit_loss Scenario.sgd None Scenario.fresh
    = (Returned tt, s').
Proof.
  assert (Hp : Forall (@paired Z) (batches Scenario.two_batches))
    by (repeat constructor).
  split; [exact Hp|].
  apply (proj2 (model_train_returns_iff
                  Scenario.two_batches Scenario.fresh
                  scenario_forward_returns scenario_unit_loss_returns
                  scenario_sgd_returns scenario_no_scheduler_returns Hp)).
  do 2 eexists. split; [reflexivity | discriminate].
Defined.

(** Training on the loader without a batch raises [ZeroDivisionError]. *)
Lemma model_train_without_sample_raises_witness :
  batches Scenario.nothing = [] /\
  exists s',
    model_train Scenario.forward Scenario.argmax Scenario.nothing
                Scenario.unit_loss Scenario.sgd None Scenario.fresh
    = (Raised ZeroDivisionError, s') /\
    train_accuracy s' = [] /\ train_losses s' = [].
Proof.
  split; [reflexivity|].
  exact (model_train_without_sample_raises
           Scenario.nothing Scenario.fresh
           scenario_forward_returns scenario_unit_loss_returns
           scenario_sgd_returns scenario_no_scheduler_returns I).
Defined.

(** The trained harness can be evaluated on the dataset of 100 samples. *)
Lemma model_test_returns_iff_witness :
  Forall (@paired Z) (batches Scenario.hundred) /\
  exists s',
    model_test Scenario.forward Scenario.argmax Scenario.hundred
               Scenario.unit_loss Scenario.trained = (Returned tt, s').
Proof.
  assert (Hp : Forall (@paired Z) (batches Scenario.hundred))
    by (repeat constructor).
  split; [exact Hp|].
  apply (proj2 (model_test_returns_iff
                  Scenario.hundred Scenario.trained
                  scenario_forward_returns scenario_unit_test_loss_returns Hp)).
  split; [exists 20%Z; split; [reflexivity | discriminate]|].
  split; discriminate.
Defined.

(** Without a batch size the evaluation raises [TypeError] with one loss and
    no accuracy recorded. *)
Lemma model_test_bad_loader_misaligns_witness :
  batch_size Scenario.unsized = None /\
  exists s',
    model_test Scenario.forward Scenario.argmax Scenario.unsized
               Scenario.unit_loss Scenario.trained = (Raised TypeError, s') /\
    List.length (test_losses s') = 1%nat /\
    List.length (test_accuracy s') = 0%nat.
Proof.
  split; [reflexivity|].
  assert (Hp : Forall (@paired Z) (batches Scenario.unsized))
    by (repeat constructor).
  destruct (model_test_bad_loader_misaligns
              Scenario.unsized Scenario.trained
              scenario_forward_returns scenario_unit_test_loss_returns Hp
              (or_introl eq_refl))
    as (e & s' & t & Hrun & He & _ & Hl & Ha & _).
  exists s'. simpl in He. subst e. split; [exact Hrun|].
  rewrite Hl, Ha, length_app. split; reflexivity.
Defined.

(** Evaluating the fresh harness raises with one entry in each test
    history. *)
Lemma model_test_untrained_still_records_witness :
  train_accuracy Scenario.fresh = [] /\
  exists s',
    model_test Scenario.forward Scenario.argmax Scenario.hundred
               Scenario.unit_loss Scenario.fresh = (Raised IndexError, s') /\
    List.length (test_losses s') = 1%nat /\
    List.length (test_accuracy s') = 1%nat /\
    console s' = [].
Proof.
  split; [reflexivity|].
  assert (Hp : Forall (@paired Z) (batches Scenario.hundred))
    by (repeat constructor).
  assert (Hb : (20 <> 0)%Z) by discriminate.
  assert (Hn : dataset_len Scenario.hundred <> 0%nat) by discriminate.
  destruct (model_test_untrained_still_records
              Scenario.hundred Scenario.fresh
              scenario_forward_returns scenario_unit_test_loss_returns Hp
              eq_refl Hb Hn eq_refl)
    as (s' & t & Hrun & _ & Hl & Ha & Hc).
  exists s'. split; [exact Hrun|].
  rewrite Hl, Ha, Hc, !length_app. repeat split.
Defined.

(** With [top_n = -2] one of the three misclassified samples of the mixed
    batch is returned. *)
Lemma get_incorrect_pred_slices_misclassified_witness :
  paired (mkBatch [1; 2; 3; 4; 5] [1; 0; 3; 0; 0])%Z /\
  exists r,
    get_incorrect_pred Scenario.forward Scenario.argmax Scenario.mixed (-2)
                       Scenario.fresh = (Returned r, Scenario.fresh) /\
    triples r = [(2, 0, 2)]%Z.
Proof.
  assert (Hp : paired (mkBatch [1; 2; 3; 4; 5] [1; 0; 3; 0; 0])%Z)
    by reflexivity.
  split; [exact Hp|].
  destruct (@get_incorrect_pred_slices_misclassified
              Z (list Z) nat Scenario.forward Scenario.argmax Scenario.mixed
              (mkBatch [1; 2; 3; 4; 5] [1; 0; 3; 0; 0])%Z
              [mkBatch [6] [6]]%Z (-2)%Z Scenario.fresh [1; 2; 3; 4; 5]%Z
              eq_refl eq_refl eq_refl Hp)
    as (r & Hr & Ht & _).
  exists r. split; [exact Hr | exact Ht].
Defined.

(** One mislabelled sample: the results come without the batch dimension. *)
Lemma get_incorrect_pred_single_is_unbatched_witness :
  paired (mkBatch [1; 2; 3] [1; 0; 3])%Z /\
  get_incorrect_pred Scenario.forward Scenario.argmax Scenario.one_wrong 10
                     Scenario.fresh
  = (Returned (Single 2, Single 0, Single 2)%Z, Scenario.fresh).
Proof.
  assert (Hp : paired (mkBatch [1; 2; 3] [1; 0; 3])%Z) by reflexivity.
  split; [exact Hp|].
  destruct (@get_incorrect_pred_single_is_unbatched
              Z (list Z) nat Scenario.forward Scenario.argmax Scenario.one_wrong
              (mkBatch [1; 2; 3] [1; 0; 3])%Z [] 10%Z Scenario.fresh
              [1; 2; 3]%Z eq_refl eq_refl eq_refl Hp)
    as (r & Hr & Hone & _).
  rewrite Hr. rewrite (Hone 2 0 2)%Z; [reflexivity|].
  assert (E : Returned r
              = fst (get_incorrect_pred Scenario.forward Scenario.argmax
                                        Scenario.one_wrong 10 Scenario.fresh))
    by (rewrite Hr; reflexivity).
  vm_compute in E. inversion E. reflexivity.
Defined.



(** 100 samples in 5 batches of 20: the printed loss is the total over 5. *)
Lemma model_test_average_over_batches_witness :
  model_test Scenario.forward Scenario.argmax Scenario.hundred
             Scenario.unit_loss Scenario.trained
    = (Returned tt,
       snd (model_test Scenario.forward Scenario.argmax Scenario.hundred
                       Scenario.unit_loss Scenario.trained)) /\
  exists (t : Tally) (r : Report),
    console (snd (model_test Scenario.forward Scenario.argmax Scenario.hundred
                             Scenario.unit_loss Scenario.trained)) = [r] /\
    average_loss r == loss_total t / 5.
Proof.
  assert (H : model_test Scenario.forward Scenario.argmax Scenario.hundred
                Scenario.unit_loss Scenario.trained
              = (Returned tt,
                 snd (model_test Scenario.forward Scenario.argmax
                                 Scenario.hundred Scenario.unit_loss
                                 Scenario.trained))) by reflexivity.
  split; [exact H|].
  pose proof H as G. apply model_test_average_over_batches in G.
  destruct G as (t & bsz & r & _ & Hb & Hc & Havg).
  exists t, r. split; [exact Hc|].
  inversion Hb; subst bsz. apply Havg. reflexivity.
Defined.

(** The unit loss is not negative: after the epoch no history has a negative
    entry. *)
Lemma losses_stay_nonnegative_witness :
  Forall (@nonnegative_loss Z (list Z) nat) Scenario.epoch /\
  run_calls Scenario.forward Scenario.argmax Scenario.epoch Scenario.fresh
    = (Returned tt, Scenario.evaluated) /\
  Forall (Qle 0) (train_losses Scenario.evaluated) /\
  Forall (Qle 0) (test_losses Scenario.evaluated).
Proof.
  assert (Hc : Forall (@nonnegative_loss Z (list Z) nat) Scenario.epoch).
  { repeat constructor; intros y tgt v E; inversion E; discriminate. }
  assert (H : run_calls Scenario.forward Scenario.argmax Scenario.epoch
                        Scenario.fresh = (Returned tt, Scenario.evaluated))
    by reflexivity.
  split; [exact Hc|]. split; [exact H|].
  eapply losses_stay_nonnegative; [exact Hc | | | exact H]; constructor.
Defined.

(** After the epoch (one training, one evaluation) both charts can be
    drawn. *)
Lemma charts_drawable_iff_balanced_witness :
  run_calls Scenario.forward Scenario.argmax Scenario.epoch Scenario.fresh
    = (Returned tt, Scenario.evaluated) /\
  Forall drawable (plot_accuracy Scenario.evaluated) /\
  Forall drawable (plot_loss Scenario.evaluated).
Proof.
  assert (H : run_calls Scenario.forward Scenario.argmax Scenario.epoch
                        Scenario.fresh = (Returned tt, Scenario.evaluated))
    by reflexivity.
  split; [exact H|].
  pose proof H as G. apply charts_drawable_iff_balanced in G;
    [|reflexivity|reflexivity|reflexivity].
  destruct G as (G1 & G2 & _).
  split; [apply G1 | apply G2]; reflexivity.
Defined.

(** The loader of 100 samples yields them all: the accuracy over the dataset
    is the accuracy over the samples seen. *)
Lemma model_test_accuracy_over_dataset_witness :
  Forall (@paired Z) (batches Scenario.hundred) /\
  (0 < samples (batches Scenario.hundred)
     <= Z.of_nat (dataset_len Scenario.hundred))%Z /\
  exists a : Q,
    test_accuracy
      (snd (model_test Scenario.forward Scenario.argmax Scenario.hundred
                       Scenario.unit_loss Scenario.trained)) = [a].
Proof.
  assert (Hp : Forall (@paired Z) (batches Scenario.hundred))
    by (repeat constructor).
  assert (Hs : (0 < samples (batches Scenario.hundred)
                  <= Z.of_nat (dataset_len Scenario.hundred))%Z)
    by (vm_compute; split; [reflexivity | discriminate]).
  split; [exact Hp|]. split; [exact Hs|].
  assert (H : model_test Scenario.forward Scenario.argmax Scenario.hundred
                Scenario.unit_loss Scenario.trained
              = (Returned tt,
                 snd (model_test Scenario.forward Scenario.argmax
                                 Scenario.hundred Scenario.unit_loss
                                 Scenario.trained))) by reflexivity.
  pose proof H as G.
  apply model_test_accuracy_over_dataset in G; [|exact Hp|exact Hs].
  destruct G as (t & _ & Ha & _).
  eexists. exact Ha.
Defined.


(** The loss function without [reduction] evaluates as its plain form. *)
Lemma model_test_plain_loss_witness :
  (forall y tgt, returns (Scenario.plain_loss true y tgt) = false) /\
  model_test Scenario.forward Scenario.argmax Scenario.hundred
             Scenario.plain_loss Scenario.trained
  = model_test Scenario.forward Scenario.argmax Scenario.hundred
               (fun _ => Scenario.plain_loss false) Scenario.trained.
Proof.
  assert (H : forall y tgt, returns (Scenario.plain_loss true y tgt) = false)
    by reflexivity.
  split; [exact H|].
  exact (model_test_plain_loss Scenario.forward Scenario.argmax
                               Scenario.hundred Scenario.plain_loss
                               Scenario.trained H).
Defined.
